(** * Retrieval-augmented QA pipeline (02_Embeddings_and_RAG/assignment.ipynb)

    A shallow embedding of the notebook's [RetrievalAugmentedQAPipeline],
    of the two prompt templates it renders, and of the collaborators it
    drives (text splitter, vector store, prompt templates), followed by the
    properties the design document states about them.

    Conventions.
    - A Python [str] is a [string]; its characters are the code points
      0..255 of [ascii].
    - A Python [int] is a [Z].
    - A Python [float] is a [PyFloat.t]: a finite one is the rational it
      denotes, and negative zero, the two infinities and NaN are values of
      their own.
    - A Python [dict] with string keys is a [gmap string _].
    - A raised exception is the [Err] case of [result]; calls to the two
      collaborators are recorded in a log that is threaded through the run. *)

From Stdlib Require Import Ascii String ZArith QArith Qabs.
From stdpp Require Import base tactics option list sorting gmap strings pretty.

Local Open Scope Z_scope.
Local Open Scope string_scope.

(** ** Characters and strings *)

Module Str.

Definition nl : string := String "010"%char "".
Definition dquote : string := String "034"%char "".

(** [str.isspace] on the code points below 256. *)
Definition is_space (c : ascii) : bool :=
  let n := N_of_ascii c in
  ((9 <=? n) && (n <=? 13) || (28 <=? n) && (n <=? 32)
   || (n =? 133) || (n =? 160))%N.

(** [str.lstrip()] *)
Fixpoint lstrip (s : string) : string :=
  match s with
  | "" => ""
  | String c s' => if is_space c then lstrip s' else s
  end.

(** [str.rstrip()] *)
Fixpoint rstrip (s : string) : string :=
  match s with
  | "" => ""
  | String c s' =>
      match rstrip s' with
      | "" => if is_space c then "" else String c ""
      | r => String c r
      end
  end.

(** [str.strip()] *)
Definition strip (s : string) : string := rstrip (lstrip s).

(** [sep.join(l)] *)
Fixpoint join (sep : string) (l : list string) : string :=
  match l with
  | [] => ""
  | [x] => x
  | x :: l' => x +:+ sep +:+ join sep l'
  end.

(** [p in s] for strings: [p] occurs in [s]. *)
Fixpoint starts_with (p s : string) : bool :=
  match p, s with
  | "", _ => true
  | String a p', String b s' => bool_decide (a = b) && starts_with p' s'
  | String _ _, "" => false
  end.

Fixpoint contains (p s : string) : bool :=
  starts_with p s ||
  match s with
  | "" => false
  | String _ s' => contains p s'
  end.

Fixpoint last_char (s : string) : option ascii :=
  match s with
  | "" => None
  | String c s' =>
      match last_char s' with
      | None => Some c
      | Some c' => Some c'
      end
  end.

Fixpoint all_space (s : string) : bool :=
  match s with
  | "" => true
  | String c s' => is_space c && all_space s'
  end.

End Str.

Abbreviation nl := Str.nl.

(** ** Python values that reach a template *)

Inductive PyVal : Type :=
  | PyStr (s : string)
  | PyInt (z : Z)
  | PyBool (b : bool)
  | PyNone.

(** [str(v)], which is what [{name}] formats a value with. *)
Definition py_str (v : PyVal) : string :=
  match v with
  | PyStr s => s
  | PyInt z => pretty z
  | PyBool true => "True"
  | PyBool false => "False"
  | PyNone => "None"
  end.

(** ** Failures *)

Inductive Error : Type :=
  | InvalidConfig
  | EmbeddingError (detail : string)
  | EmptyStoreError
  | DegenerateVectorError
  | MissingPlaceholderError (name : string)
  | GenerationError (detail : string).

Inductive result (A : Type) : Type :=
  | Ok (a : A)
  | Err (e : Error).
Arguments Ok {A} a.
Arguments Err {A} e.

(** ** Python floats *)

Module PyFloat.

(** [Finite q] is the float whose value is the rational [q], [Finite 0]
    being positive zero; negative zero, which has the same value and
    another sign, is apart. *)
Inductive t : Type :=
  | Finite (q : Q)
  | NegZero
  | Infinity (negative : bool)
  | NaN.

(** The rational a float denotes. A float that is not finite denotes none:
    0 stands for it, and nothing below relies on that. *)
Definition value (x : t) : Q :=
  match x with
  | Finite q => q
  | NegZero | Infinity _ | NaN => 0%Q
  end.

End PyFloat.

(** ** [f"{score:.3f}"] *)

Module Fmt.

(** Nearest integer to a non-negative rational, ties to even. *)
Definition round_half_even (q : Q) : Z :=
  let n := Qnum q in
  let d := Zpos (Qden q) in
  let f := n / d in
  let r := n mod d in
  match 2 * r ?= d with
  | Lt => f
  | Gt => f + 1
  | Eq => if Z.even f then f else f + 1
  end.

Definition digit (d : Z) : ascii := pretty_N_char (Z.to_N d).

(** Three digits, zero padded, of [0 <= m < 1000]. *)
Definition pad3 (m : Z) : string :=
  String (digit (m / 100))
    (String (digit ((m / 10) mod 10))
       (String (digit (m mod 10)) "")).

(** Thousandths of [|q|], rounded. *)
Definition thousandths (q : Q) : Z :=
  round_half_even (Qabs q * (1000 # 1))%Q.

(** A finite value other than negative zero: its sign, then the rounded
    magnitude. A negative value that rounds to zero keeps its sign. *)
Definition format_finite (q : Q) : string :=
  let n := thousandths q in
  (if (Qnum q <? 0)%Z then "-" else "")
    +:+ pretty (n / 1000) +:+ "." +:+ pad3 (n mod 1000).

(** [format(x, ".3f")]: negative zero keeps its sign, an infinity is
    written [inf] with its sign, and NaN is written [nan] whatever its
    sign. *)
Definition format_3f (x : PyFloat.t) : string :=
  match x with
  | PyFloat.Finite q => format_finite q
  | PyFloat.NegZero => "-0.000"
  | PyFloat.Infinity negative => if negative then "-inf" else "inf"
  | PyFloat.NaN => "nan"
  end.

End Fmt.

(** ** Data model *)

Record Chunk : Type := {
  text : string;
  source_id : string;
  offset : nat;
  span : nat   (* the data model's [length] *)
}.

(** An element of a search result: the tuple [(context, score)]. *)
Record ScoredChunk : Type := {
  chunk : Chunk;
  raw_score : PyFloat.t
}.

(** The similarity a scored chunk carries, as a rational. *)
Definition similarity (c : ScoredChunk) : Q := PyFloat.value (raw_score c).

Inductive Role : Type := System | User.

Record Message : Type := {
  role : Role;
  content : string
}.

Record PromptsUsed : Type := {
  system : Message;
  user : Message
}.

Record PipelineResult : Type := {
  response : string;
  context : list ScoredChunk;
  context_count : Z;
  similarity_scores : option (list string);
  prompts_used : PromptsUsed
}.

(** ** Prompt templates *)

Module Prompt.

Inductive Segment : Type :=
  | Lit (s : string)
  | Hole (name : string).

Inductive Mode : Type := InLit | InHole.

Definition flush (acc : string) : list Segment :=
  match acc with
  | "" => []
  | _ => [Lit (String.rev acc)]
  end.

(** Splits a template at its [{name}] placeholders; [acc] holds the
    characters of the current segment, last one first. *)
Fixpoint scan (m : Mode) (acc : string) (s : string) : list Segment :=
  match s with
  | "" =>
      match m with
      | InLit => flush acc
      | InHole => [Lit (String "{" (String.rev acc))]
      end
  | String c s' =>
      match m with
      | InLit =>
          if bool_decide (c = "{"%char)
          then (flush acc ++ scan InHole "" s')%list
          else scan InLit (String c acc) s'
      | InHole =>
          if bool_decide (c = "}"%char)
          then Hole (String.rev acc) :: scan InLit "" s'
          else scan InHole (String c acc) s'
      end
  end.

Definition parse (template : string) : list Segment := scan InLit "" template.

Fixpoint holes (l : list Segment) : list string :=
  match l with
  | [] => []
  | Lit _ :: l' => holes l'
  | Hole n :: l' => n :: holes l'
  end.

(** Modelled from the spec: the classes [SystemRolePrompt] and
    [UserRolePrompt] of [aimakerspace.openai_utils.prompts] are imported by
    the notebook and not part of it. A template holds its text, the
    defaults of its optional placeholders and its strictness flag; the
    role is the one of the class that built it. *)
Record PromptTemplate : Type := {
  template : string;
  prompt_role : Role;
  strict : bool;
  defaults : gmap string PyVal
}.

(** The placeholders a caller has to supply: those of the text that have
    no default. *)
Definition required (t : PromptTemplate) : list string :=
  filter (λ n, defaults t !! n = None) (holes (parse (template t))).

(** Modelled from the spec: every placeholder is replaced by the supplied
    value, else by its default; an unresolved one fails with
    [MissingPlaceholderError] in strict mode and is left as the empty
    string otherwise. Keys that the template does not mention are never
    looked at. *)
Fixpoint render (is_strict : bool) (values : gmap string PyVal)
    (l : list Segment) : result string :=
  match l with
  | [] => Ok ""
  | Lit s :: l' =>
      match render is_strict values l' with
      | Ok rest => Ok (s +:+ rest)
      | Err e => Err e
      end
  | Hole n :: l' =>
      match values !! n with
      | Some v =>
          match render is_strict values l' with
          | Ok rest => Ok (py_str v +:+ rest)
          | Err e => Err e
          end
      | None =>
          if is_strict then Err (MissingPlaceholderError n)
          else render is_strict values l'
      end
  end.

(** Modelled from the spec: [create_message], called with keyword
    arguments; the supplied values take precedence over the defaults. *)
Definition create_message (t : PromptTemplate) (params : gmap string PyVal)
    : result Message :=
  match render (strict t) (params ∪ defaults t) (parse (template t)) with
  | Ok s => Ok {| role := prompt_role t; content := s |}
  | Err e => Err e
  end.

Definition SystemRolePrompt (prompt : string) (is_strict : bool)
    (dflt : gmap string PyVal) : PromptTemplate :=
  {| template := prompt; prompt_role := System;
     strict := is_strict; defaults := dflt |}.

Definition UserRolePrompt (prompt : string) (is_strict : bool)
    (dflt : gmap string PyVal) : PromptTemplate :=
  {| template := prompt; prompt_role := User;
     strict := is_strict; defaults := dflt |}.

End Prompt.

(** ** The notebook's two templates *)

Definition I_dont_know : string :=
  "respond with " +:+ Str.dquote +:+ "I don't know" +:+ Str.dquote.

Definition RAG_SYSTEM_TEMPLATE : string :=
  "You are a knowledgeable assistant that answers questions based strictly on provided context." +:+ nl +:+
  nl +:+
  "Instructions:" +:+ nl +:+
  "- Only answer questions using information from the provided context" +:+ nl +:+
  "- If the context doesn't contain relevant information, " +:+ I_dont_know +:+ nl +:+
  "- Be accurate and cite specific parts of the context when possible" +:+ nl +:+
  "- Keep responses {response_style} and {response_length}" +:+ nl +:+
  "- Only use the provided context. Do not use external knowledge." +:+ nl +:+
  "- Only provide answers when you are confident the context supports your response.".

Definition RAG_USER_TEMPLATE : string :=
  "Context Information:" +:+ nl +:+
  "{context}" +:+ nl +:+
  nl +:+
  "Number of relevant sources found: {context_count}" +:+ nl +:+
  "{similarity_scores}" +:+ nl +:+
  nl +:+
  "Question: {user_query}" +:+ nl +:+
  nl +:+
  "Please provide your answer based solely on the context above.".

Definition rag_system_prompt : Prompt.PromptTemplate :=
  Prompt.SystemRolePrompt RAG_SYSTEM_TEMPLATE true
    (<["response_style" := PyStr "simple"]>
       (<["response_length" := PyStr "short"]> ∅)).

Definition rag_user_prompt : Prompt.PromptTemplate :=
  Prompt.UserRolePrompt RAG_USER_TEMPLATE true
    (<["context_count" := PyStr ""]>
       (<["similarity_scores" := PyStr ""]> ∅)).

(** ** Collaborators and the effects of a run *)

(** [ChatOpenAI]: only [run] is used. *)
Record ChatModel : Type := {
  run : list Message → result string
}.

(** [VectorDatabase]: only [search_by_text] is used. *)
Record Retriever : Type := {
  search_by_text : string → Z → result (list ScoredChunk)
}.

Inductive Event : Type :=
  | SearchByText (query : string) (k : Z)
  | LlmRun (messages : list Message).

(** A computation that may raise and that logs the collaborator calls it
    makes; the log survives a raise. *)
Definition M (A : Type) : Type := list Event → list Event * result A.

Definition ret {A} (a : A) : M A := λ log, (log, Ok a).

Definition bind {A B} (m : M A) (f : A → M B) : M B :=
  λ log,
    match m log with
    | (log', Ok a) => f a log'
    | (log', Err e) => (log', Err e)
    end.

Definition lift {A} (r : result A) : M A := λ log, (log, r).

Definition call {A} (ev : Event) (r : result A) : M A :=
  λ log, ((log ++ [ev])%list, r).

#[global] Instance M_ret : MRet M := @ret.
#[global] Instance M_bind : MBind M := λ A B f m, bind m f.

(** The prompts an LLM was asked to complete, oldest first. *)
Fixpoint llm_calls (log : list Event) : list (list Message) :=
  match log with
  | [] => []
  | LlmRun msgs :: log' => msgs :: llm_calls log'
  | SearchByText _ _ :: log' => llm_calls log'
  end.

(** ** The pipeline *)

Record RetrievalAugmentedQAPipeline : Type := {
  llm : ChatModel;
  vector_db_retriever : Retriever;
  response_style : string;
  include_scores : bool
}.

Definition source_entry (i : Z) (c : ScoredChunk) : string :=
  "[Source " +:+ pretty i +:+ "]: " +:+ text (chunk c).

Definition score_entry (i : Z) (c : ScoredChunk) : string :=
  "Source " +:+ pretty i +:+ ": " +:+ Fmt.format_3f (raw_score c).

(** The [for i, (context, score) in enumerate(context_list, 1)] loop, with
    its two accumulators. *)
Fixpoint enumerate_loop (i : Z) (context_list : list ScoredChunk)
    (context_prompt : string) (scores : list string)
    : string * list string :=
  match context_list with
  | [] => (context_prompt, scores)
  | c :: rest =>
      enumerate_loop (i + 1) rest
        (context_prompt +:+ (source_entry i c +:+ nl +:+ nl))
        (scores ++ [score_entry i c])%list
  end.

Definition run_pipeline (self : RetrievalAugmentedQAPipeline)
    (user_query : string) (k : Z) (system_kwargs : gmap string PyVal)
    : M PipelineResult :=
  context_list ← call (SearchByText user_query k)
                    (search_by_text (vector_db_retriever self) user_query k);
  let '(context_prompt, scores) := enumerate_loop 1 context_list "" [] in
  let system_params : gmap string PyVal :=
    <["response_length" :=
        default (PyStr "detailed") (system_kwargs !! "response_length")]>
      (<["response_style" := PyStr (response_style self)]> ∅) in
  formatted_system_prompt ←
    lift (Prompt.create_message rag_system_prompt system_params);
  let user_params : gmap string PyVal :=
    <["similarity_scores" :=
        PyStr (if include_scores self
               then "Relevance scores: " +:+ Str.join ", " scores
               else "")]>
      (<["context_count" := PyInt (Z.of_nat (length context_list))]>
         (<["context" := PyStr (Str.strip context_prompt)]>
            (<["user_query" := PyStr user_query]> ∅))) in
  formatted_user_prompt ←
    lift (Prompt.create_message rag_user_prompt user_params);
  answer ← call (LlmRun [formatted_system_prompt; formatted_user_prompt])
              (run (llm self) [formatted_system_prompt; formatted_user_prompt]);
  mret {| response := answer;
         context := context_list;
         context_count := Z.of_nat (length context_list);
         similarity_scores := if include_scores self then Some scores else None;
         prompts_used := {| system := formatted_system_prompt;
                            user := formatted_user_prompt |} |}.

(** ** What a run is expected to produce

    These definitions restate, in closed form, the strings the design
    document describes; the theorems below compare them with what
    [run_pipeline] computes. *)

(** [f 1 c1; f 2 c2; ...]: the chunks numbered from [i] in list order. *)
Fixpoint numbered {A} (f : Z → ScoredChunk → A) (i : Z)
    (l : list ScoredChunk) : list A :=
  match l with
  | [] => []
  | c :: rest => f i c :: numbered f (i + 1) rest
  end.

(** Every entry followed by a blank line. *)
Fixpoint paragraphs (entries : list string) : string :=
  match entries with
  | [] => ""
  | e :: rest => e +:+ nl +:+ nl +:+ paragraphs rest
  end.

Definition context_block (context_list : list ScoredChunk) : string :=
  Str.strip (paragraphs (numbered source_entry 1 context_list)).

Definition scores_line (with_scores : bool)
    (context_list : list ScoredChunk) : string :=
  if with_scores
  then "Relevance scores: "
         +:+ Str.join ", " (numbered score_entry 1 context_list)
  else "".

Definition system_content (style len : string) : string :=
  "You are a knowledgeable assistant that answers questions based strictly on provided context." +:+ nl +:+
  nl +:+
  "Instructions:" +:+ nl +:+
  "- Only answer questions using information from the provided context" +:+ nl +:+
  "- If the context doesn't contain relevant information, " +:+ I_dont_know +:+ nl +:+
  "- Be accurate and cite specific parts of the context when possible" +:+ nl +:+
  "- Keep responses " +:+ style +:+ " and " +:+ len +:+ nl +:+
  "- Only use the provided context. Do not use external knowledge." +:+ nl +:+
  "- Only provide answers when you are confident the context supports your response.".

Definition user_content (block count line query : string) : string :=
  "Context Information:" +:+ nl +:+
  block +:+ nl +:+
  nl +:+
  "Number of relevant sources found: " +:+ count +:+ nl +:+
  line +:+ nl +:+
  nl +:+
  "Question: " +:+ query +:+ nl +:+
  nl +:+
  "Please provide your answer based solely on the context above.".

(** The [response_length] a run uses. *)
Definition response_length_of (system_kwargs : gmap string PyVal) : string :=
  match system_kwargs !! "response_length" with
  | Some v => py_str v
  | None => "detailed"
  end.

Definition system_message (self : RetrievalAugmentedQAPipeline)
    (system_kwargs : gmap string PyVal) : Message :=
  {| role := System;
     content := system_content (response_style self)
                  (response_length_of system_kwargs) |}.

Definition user_message (self : RetrievalAugmentedQAPipeline)
    (user_query : string) (context_list : list ScoredChunk) : Message :=
  {| role := User;
     content := user_content (context_block context_list)
                  (pretty (Z.of_nat (length context_list)))
                  (scores_line (include_scores self) context_list)
                  user_query |}.

(** [s] writes [q] with three decimals: a sign, the integer part, a point
    and the three digits of the thousandths, the whole being the nearest
    multiple of 1/1000 to [q]. *)
Definition three_decimals (q : Q) (s : string) : Prop :=
  ∃ n d1 d2 d3 : Z,
    (0 ≤ n)%Z ∧ (0 ≤ d1 ≤ 9)%Z ∧ (0 ≤ d2 ≤ 9)%Z ∧ (0 ≤ d3 ≤ 9)%Z ∧
    (n mod 1000 = 100 * d1 + 10 * d2 + d3)%Z ∧
    (Qabs (Qabs q * (1000 # 1) - inject_Z n) <= 1 # 2)%Q ∧
    s = (if (Qnum q <? 0)%Z then "-" else "")
          +:+ pretty (n / 1000) +:+ "."
          +:+ String (Fmt.digit d1) (String (Fmt.digit d2)
                (String (Fmt.digit d3) "")).

(** ** Vector store *)

Module VectorStore.

Definition EmbeddingVector : Type := list Q.

Inductive Key : Type :=
  | IntKey (n : Z)
  | TextKey (s : string).

Record IndexEntry : Type := {
  entry_chunk : Chunk;
  entry_vector : EmbeddingVector
}.

(** Modelled from the spec: [VectorDatabase] of
    [aimakerspace.vectordatabase] is imported by the notebook and not part
    of it. The store maps keys to entries and iterates in insertion
    order. *)
Definition t : Type := list (Key * IndexEntry).

Section Search.

(** The metric is the provider's floating-point cosine; it is taken as
    a total function into the rationals, which is the policy under
    which a zero-magnitude vector has a similarity instead of a
    failure. *)
Variable cosine_similarity : EmbeddingVector → EmbeddingVector → Q.

Definition score (query_vector : EmbeddingVector)
    (e : Key * IndexEntry) : ScoredChunk :=
  {| chunk := entry_chunk e.2;
     raw_score :=
       PyFloat.Finite (cosine_similarity query_vector (entry_vector e.2)) |}.

(** Puts [x] in front of the first element that is not strictly more
    similar, so that [x] stays ahead of its equals. *)
Fixpoint insert_desc (x : ScoredChunk) (l : list ScoredChunk)
    : list ScoredChunk :=
  match l with
  | [] => [x]
  | y :: l' =>
      if Qle_bool (similarity y) (similarity x)
      then x :: y :: l'
      else y :: insert_desc x l'
  end.

(** Stable sort by similarity, highest first. *)
Fixpoint sort_desc (l : list ScoredChunk) : list ScoredChunk :=
  match l with
  | [] => []
  | x :: l' => insert_desc x (sort_desc l')
  end.

(** Modelled from the spec: [search(query_vector, k)] scores every
    stored vector, returns the [k] most similar, highest first, ties in
    insertion order, all of them when fewer than [k] are stored, and
    fails on a store without entries. The contract asks for [k > 0]. *)
Definition search (store : t) (query_vector : EmbeddingVector) (k : Z)
    : result (list ScoredChunk) :=
  match store with
  | [] => Err EmptyStoreError
  | _ => Ok (take (Z.to_nat k) (sort_desc (map (score query_vector) store)))
  end.

End Search.

(** [a] is ranked before [b]: it is at least as similar. *)
Definition ranks_before (a b : ScoredChunk) : Prop :=
  (similarity b <= similarity a)%Q.

End VectorStore.

(** ** Text chunker *)

Module TextChunker.

Record Document : Type := {
  doc_text : string;
  doc_id : string
}.

(** Modelled from the spec: [CharacterTextSplitter] of
    [aimakerspace.text_utils] is imported by the notebook and not part of
    it. Windows of [chunk_size] characters are opened every [stride]
    characters; a window that is empty is not emitted, and the window
    that reaches the end of the document is the final one, the only one
    that may be shorter than [chunk_size]. The recursion is on [fuel],
    which [split] sets to the length of the document. *)
Fixpoint windows (fuel : nat) (d : Document) (chunk_size stride : nat)
    (start : nat) : list Chunk :=
  match fuel with
  | O => []
  | S fuel' =>
      let w := String.substring start chunk_size (doc_text d) in
      if bool_decide (w = "") then []
      else
        {| text := w; source_id := doc_id d;
           offset := start; span := String.length w |} ::
        (if (String.length (doc_text d) <=? start + chunk_size)%nat
         then []
         else windows fuel' d chunk_size stride (start + stride)%nat)
  end.

Definition split_document (chunk_size overlap : Z) (d : Document)
    : list Chunk :=
  windows (String.length (doc_text d)) d (Z.to_nat chunk_size)
    (Z.to_nat (chunk_size - overlap)) 0.

(** Modelled from the spec: [split(documents, chunk_size, overlap)]; the
    chunks of the documents follow each other in document order. *)
Definition split (documents : list Document) (chunk_size overlap : Z)
    : result (list Chunk) :=
  if (chunk_size <=? 0)%Z || (chunk_size <=? overlap)%Z
  then Err InvalidConfig
  else Ok (concat (map (split_document chunk_size overlap) documents)).

(** A document of [n] copies of one character. *)
Fixpoint filler (n : nat) (c : ascii) : string :=
  match n with
  | O => ""
  | S n' => String c (filler n' c)
  end.

End TextChunker.

(** ** Sample collaborators and runs *)

Module Sample.

Definition scored (t : string) (q : Q) : ScoredChunk :=
  {| chunk := {| text := t; source_id := "manual"; offset := 0;
                 span := String.length t |};
     raw_score := PyFloat.Finite q |}.

(** A chunk whose score is not a number, as the cosine of a zero vector
    is when it is computed with floats. *)
Definition not_a_number : ScoredChunk :=
  {| chunk := {| text := "Cover page"; source_id := "manual"; offset := 0;
                 span := 10 |};
     raw_score := PyFloat.NaN |}.

Definition hits : list ScoredChunk :=
  [ scored "U-6 players learn through play" (637 # 1000);
    scored "U-8 players start to pass" (614 # 1000);
    scored "Coaches encourage passing" (610 # 1000) ].

(** A retriever that answers every query with the first [k] of [l]. *)
Definition fixed_retriever (l : list ScoredChunk) : Retriever :=
  {| search_by_text := λ _ k, Ok (take (Z.to_nat k) l) |}.

Definition failing_retriever : Retriever :=
  {| search_by_text := λ _ _, Err (EmbeddingError "rate limit") |}.

Definition fixed_llm : ChatModel :=
  {| run := λ _, Ok "They differ in how they play." |}.

Definition failing_llm : ChatModel :=
  {| run := λ _, Err (GenerationError "timeout") |}.

Definition pipeline (m : ChatModel) (r : Retriever) (with_scores : bool)
    : RetrievalAugmentedQAPipeline :=
  {| llm := m; vector_db_retriever := r;
     response_style := "detailed"; include_scores := with_scores |}.

(** A chunk whose text ends in a space, as a fixed-width window often
    does. *)
Definition open_ended : ScoredChunk :=
  scored "U-6 players learn through play " (637 # 1000).

(** A stand-in metric for the sample store: the dot product, which is
    the cosine on vectors of unit length. *)
Fixpoint dot (a b : VectorStore.EmbeddingVector) : Q :=
  match a, b with
  | x :: a', y :: b' => (x * y + dot a' b')%Q
  | _, _ => 0%Q
  end.

Definition entry (t : string) (v : VectorStore.EmbeddingVector)
    : VectorStore.Key * VectorStore.IndexEntry :=
  (VectorStore.TextKey t,
   {| VectorStore.entry_chunk :=
        {| text := t; source_id := "manual"; offset := 0;
           span := String.length t |};
      VectorStore.entry_vector := v |}).

Definition store : VectorStore.t :=
  [ entry "warm-up" [(3 # 5)%Q; (4 # 5)%Q];
    entry "passing" [1%Q; 0%Q];
    entry "shooting" [0%Q; 1%Q] ].

Definition question : string :=
  "What are the differences between coaching kids?".

(** The keyword arguments of the notebook's call. *)
Definition kwargs : gmap string PyVal :=
  <["response_length" := PyStr "comprehensive"]>
    (<["include_warnings" := PyBool true]>
       (<["confidence_required" := PyBool true]> ∅)).

Definition kwargs_plain : gmap string PyVal :=
  <["response_length" := PyStr "comprehensive"]> ∅.

End Sample.

(** ** The constructor *)

(** [__init__(llm, vector_db_retriever, response_style="detailed",
    include_scores=False)]: an argument the caller leaves out is [None]. *)
Definition __init__ (llm_arg : ChatModel) (retriever_arg : Retriever)
    (response_style_arg : option string) (include_scores_arg : option bool)
    : RetrievalAugmentedQAPipeline :=
  {| llm := llm_arg;
     vector_db_retriever := retriever_arg;
     response_style := default "detailed" response_style_arg;
     include_scores := default false include_scores_arg |}.

(** * Properties *)

(** ** Strings *)

Module StrFacts.

Lemma app_assoc (a b c : string) : (a +:+ b) +:+ c = a +:+ b +:+ c.
Proof. induction a as [|x a IH]; [done|]. cbv [String.append] in *. by f_equal. Qed.

Lemma app_nil_r (a : string) : a +:+ "" = a.
Proof. induction a as [|x a IH]; [done|]. cbv [String.append] in *. by f_equal. Qed.

Lemma app_cons (x : ascii) (a b : string) :
  String x a +:+ b = String x (a +:+ b).
Proof. done. Qed.

Lemma app_nil_l (a : string) : "" +:+ a = a.
Proof. done. Qed.

Lemma rstrip_cons (c : ascii) (s : string) :
  Str.rstrip (String c s) =
    match Str.rstrip s with
    | "" => if Str.is_space c then "" else String c ""
    | r => String c r
    end.
Proof. done. Qed.

Lemma rstrip_all_space (s : string) :
  Str.all_space s = true → Str.rstrip s = "".
Proof.
  induction s as [|c s IH]; [done|]. cbn [Str.all_space].
  intros [Hc Hs]%andb_prop. rewrite rstrip_cons, (IH Hs). by rewrite Hc.
Qed.

Lemma rstrip_app_space (s t : string) :
  Str.all_space t = true → Str.rstrip (s +:+ t) = Str.rstrip s.
Proof.
  intros Ht. induction s as [|c s IH].
  - rewrite app_nil_l. by apply rstrip_all_space.
  - rewrite app_cons, !rstrip_cons. by rewrite IH.
Qed.

Lemma rstrip_last_nonspace (s : string) (c : ascii) :
  Str.is_space c = false →
  Str.rstrip (s +:+ String c "") = s +:+ String c "".
Proof.
  intros Hc. induction s as [|x s IH].
  - rewrite app_nil_l, rstrip_cons. cbn [Str.rstrip]. by rewrite Hc.
  - rewrite app_cons, rstrip_cons, IH.
    destruct s; done.
Qed.

Lemma last_char_snoc (s : string) (c : ascii) :
  Str.last_char s = Some c → ∃ s', s = s' +:+ String c "".
Proof.
  revert c. induction s as [|x s IH]; [done|]. intros c. cbn [Str.last_char].
  destruct (Str.last_char s) as [c'|] eqn:E.
  - intros [= ->]. destruct (IH c eq_refl) as [s' ->].
    exists (String x s'). done.
  - intros [= ->]. destruct s as [|y s].
    + by exists "".
    + cbn [Str.last_char] in E. by destruct (Str.last_char s).
Qed.

Lemma last_char_app (a b : string) (c : ascii) :
  Str.last_char b = Some c → Str.last_char (a +:+ b) = Some c.
Proof.
  intros Hb. induction a as [|x a IH]; [done|].
  rewrite app_cons. cbn [Str.last_char]. by rewrite IH.
Qed.

Lemma starts_with_app (p s : string) : Str.starts_with p (p +:+ s) = true.
Proof.
  induction p as [|x p IH]; [by destruct s|].
  rewrite app_cons. cbn [Str.starts_with].
  by rewrite bool_decide_eq_true_2, IH.
Qed.

Lemma contains_app (pre p post : string) :
  Str.contains p (pre +:+ p +:+ post) = true.
Proof.
  induction pre as [|x pre IH].
  - rewrite app_nil_l. destruct (p +:+ post) eqn:E; cbn [Str.contains];
      rewrite <- E, starts_with_app; done.
  - rewrite app_cons. cbn [Str.contains]. rewrite IH. apply orb_true_r.
Qed.

Lemma paragraphs_join (l : list string) :
  l ≠ [] → paragraphs l = Str.join (nl +:+ nl) l +:+ nl +:+ nl.
Proof.
  induction l as [|x [|y l] IH]; [done| |]; intros _.
  - cbn [paragraphs Str.join]. by rewrite app_nil_r.
  - cbn [paragraphs Str.join] in *. rewrite IH by done.
    by rewrite !app_assoc.
Qed.

Lemma last_char_join (sep : string) (l : list string) (e : string) (c : ascii) :
  last l = Some e → Str.last_char e = Some c →
  Str.last_char (Str.join sep l) = Some c.
Proof.
  intros Hl He. induction l as [|x [|y l] IH]; [done| |].
  - cbn in Hl. by simplify_eq.
  - change (Str.join sep (x :: y :: l)) with (x +:+ sep +:+ Str.join sep (y :: l)).
    do 2 apply last_char_app. by apply IH.
Qed.

End StrFacts.

(** ** The loop and the two renderings *)

Section Numbered.
Context {A : Type} (f : Z → ScoredChunk → A).

Lemma length_numbered (i : Z) (l : list ScoredChunk) :
  length (numbered f i l) = length l.
Proof. revert i. induction l as [|c l IH]; intros i; cbn; [done|]. by rewrite IH. Qed.

Lemma numbered_lookup (i : Z) (l : list ScoredChunk) (n : nat) :
  numbered f i l !! n = f (i + Z.of_nat n) <$> l !! n.
Proof.
  revert i n. induction l as [|c l IH]; intros i [|n]; cbn [numbered]; try done.
  - cbn. by rewrite Z.add_0_r.
  - cbn [lookup list_lookup]. change (numbered f (i + 1) l !! n = f (i + Z.of_nat (S n)) <$> l !! n).
    rewrite IH. by replace (i + 1 + Z.of_nat n) with (i + Z.of_nat (S n)) by lia.
Qed.

Lemma numbered_snoc (i : Z) (l : list ScoredChunk) (c : ScoredChunk) :
  numbered f i (l ++ [c]) = (numbered f i l ++ [f (i + Z.of_nat (length l)) c])%list.
Proof.
  revert i. induction l as [|x l IH]; intros i; cbn [numbered app length].
  - by rewrite Z.add_0_r.
  - rewrite IH. by replace (i + 1 + Z.of_nat (length l)) with (i + Z.of_nat (S (length l))) by lia.
Qed.
End Numbered.

Lemma enumerate_loop_spec (i : Z) (l : list ScoredChunk)
    (context_prompt : string) (scores : list string) :
  enumerate_loop i l context_prompt scores =
    (context_prompt +:+ paragraphs (numbered source_entry i l),
     (scores ++ numbered score_entry i l)%list).
Proof.
  revert i context_prompt scores.
  induction l as [|c l IH]; intros i cp sc; cbn [enumerate_loop numbered paragraphs].
  - by rewrite StrFacts.app_nil_r, app_nil_r.
  - rewrite IH, <- app_assoc. f_equal.
    by rewrite !StrFacts.app_assoc.
Qed.

Lemma parse_system_template :
  Prompt.parse RAG_SYSTEM_TEMPLATE =
    [ Prompt.Lit
        ("You are a knowledgeable assistant that answers questions based strictly on provided context." +:+ nl +:+
         nl +:+
         "Instructions:" +:+ nl +:+
         "- Only answer questions using information from the provided context" +:+ nl +:+
         "- If the context doesn't contain relevant information, " +:+ I_dont_know +:+ nl +:+
         "- Be accurate and cite specific parts of the context when possible" +:+ nl +:+
         "- Keep responses ");
      Prompt.Hole "response_style";
      Prompt.Lit " and ";
      Prompt.Hole "response_length";
      Prompt.Lit
        (nl +:+
         "- Only use the provided context. Do not use external knowledge." +:+ nl +:+
         "- Only provide answers when you are confident the context supports your response.") ].
Proof. vm_compute. reflexivity. Qed.

Lemma parse_user_template :
  Prompt.parse RAG_USER_TEMPLATE =
    [ Prompt.Lit ("Context Information:" +:+ nl);
      Prompt.Hole "context";
      Prompt.Lit (nl +:+ nl +:+ "Number of relevant sources found: ");
      Prompt.Hole "context_count";
      Prompt.Lit nl;
      Prompt.Hole "similarity_scores";
      Prompt.Lit (nl +:+ nl +:+ "Question: ");
      Prompt.Hole "user_query";
      Prompt.Lit (nl +:+ nl +:+
                  "Please provide your answer based solely on the context above.") ].
Proof. vm_compute. reflexivity. Qed.

Lemma create_system_message (style : string) (len : PyVal) :
  Prompt.create_message rag_system_prompt
    (<["response_length" := len]> (<["response_style" := PyStr style]> ∅))
  = Ok {| role := System; content := system_content style (py_str len) |}.
Proof.
  unfold Prompt.create_message.
  change (Prompt.template rag_system_prompt) with RAG_SYSTEM_TEMPLATE.
  rewrite parse_system_template. cbn [Prompt.render].
  rewrite (lookup_union_Some_l _ _ "response_style" (PyStr style)) by by simplify_map_eq.
  rewrite (lookup_union_Some_l _ _ "response_length" len) by by simplify_map_eq.
  reflexivity.
Qed.

Lemma create_user_message (query block line : string) (count : Z) :
  Prompt.create_message rag_user_prompt
    (<["similarity_scores" := PyStr line]>
       (<["context_count" := PyInt count]>
          (<["context" := PyStr block]>
             (<["user_query" := PyStr query]> ∅))))
  = Ok {| role := User; content := user_content block (pretty count) line query |}.
Proof.
  unfold Prompt.create_message.
  change (Prompt.template rag_user_prompt) with RAG_USER_TEMPLATE.
  rewrite parse_user_template. cbn [Prompt.render].
  rewrite (lookup_union_Some_l _ _ "context" (PyStr block)) by by simplify_map_eq.
  rewrite (lookup_union_Some_l _ _ "context_count" (PyInt count)) by by simplify_map_eq.
  rewrite (lookup_union_Some_l _ _ "similarity_scores" (PyStr line)) by by simplify_map_eq.
  rewrite (lookup_union_Some_l _ _ "user_query" (PyStr query)) by by simplify_map_eq.
  reflexivity.
Qed.

(** ** What a run does, in one equation *)

Lemma llm_calls_app (a b : list Event) :
  llm_calls (a ++ b) = (llm_calls a ++ llm_calls b)%list.
Proof.
  induction a as [|[?|?] a IH]; cbn [llm_calls app]; [done|done|].
  by rewrite IH.
Qed.

Lemma run_pipeline_unfold (self : RetrievalAugmentedQAPipeline)
    (user_query : string) (k : Z) (system_kwargs : gmap string PyVal)
    (log : list Event) :
  run_pipeline self user_query k system_kwargs log =
    match search_by_text (vector_db_retriever self) user_query k with
    | Err e => ((log ++ [SearchByText user_query k])%list, Err e)
    | Ok context_list =>
        let sys := system_message self system_kwargs in
        let usr := user_message self user_query context_list in
        ((log ++ [SearchByText user_query k; LlmRun [sys; usr]])%list,
         match run (llm self) [sys; usr] with
         | Err e => Err e
         | Ok answer =>
             Ok {| response := answer;
                   context := context_list;
                   context_count := Z.of_nat (length context_list);
                   similarity_scores :=
                     if include_scores self
                     then Some (numbered score_entry 1 context_list)
                     else None;
                   prompts_used := {| system := sys; user := usr |} |}
         end)
    end.
Proof.
  unfold run_pipeline, mbind, M_bind, bind, call, lift.
  destruct (search_by_text _ _ _) as [ctx|e]; [|done].
  rewrite enumerate_loop_spec, StrFacts.app_nil_l, app_nil_l.
  rewrite create_system_message, create_user_message.
  assert (py_str (default (PyStr "detailed") (system_kwargs !! "response_length"))
          = response_length_of system_kwargs) as ->.
  { unfold response_length_of. by destruct (system_kwargs !! "response_length"). }
  assert ((if include_scores self
           then "Relevance scores: " +:+ Str.join ", " (numbered score_entry 1 ctx)
           else "") = scores_line (include_scores self) ctx) as -> by done.
  fold (context_block ctx).
  fold (system_message self system_kwargs).
  fold (user_message self user_query ctx).
  cbn zeta.
  destruct (run (llm self) _) as [answer|e]; cbn.
  - by rewrite <- app_assoc.
  - by rewrite <- app_assoc.
Qed.

(** ** Three-decimal formatting *)

Module FmtFacts.

Lemma round_half_even_nearest (x : Q) :
  (0 <= x)%Q →
  (0 ≤ Fmt.round_half_even x)%Z ∧
  (Qabs (x - inject_Z (Fmt.round_half_even x)) <= 1 # 2)%Q.
Proof.
  destruct x as [a d]. unfold Qle; cbn [Qnum Qden]. intros Ha.
  unfold Fmt.round_half_even; cbn [Qnum Qden].
  pose proof (Z.div_mod a (Z.pos d) ltac:(lia)) as Hdm.
  pose proof (Z.mod_pos_bound a (Z.pos d) ltac:(lia)) as Hr.
  assert (0 ≤ a `div` Z.pos d)%Z as Hf by (apply Z.div_pos; lia).
  set (f := (a `div` Z.pos d)%Z) in *. set (r := (a `mod` Z.pos d)%Z) in *.
  assert (∀ n : Z, (0 ≤ n)%Z → (- Z.pos d ≤ 2 * (a - n * Z.pos d) ≤ Z.pos d)%Z →
            (0 ≤ n)%Z ∧ (Qabs ((a # d) - inject_Z n) <= 1 # 2)%Q) as Hgen.
  { intros n Hn Hb. split; [done|]. apply Qabs_Qle_condition.
    unfold Qle, Qminus, Qplus, Qopp, inject_Z; cbn [Qnum Qden].
    rewrite !Pos.mul_1_r. split; lia. }
  destruct (Z.compare_spec (2 * r) (Z.pos d)) as [He|Hl|Hg].
  - destruct (Z.even f); apply Hgen; nia.
  - apply Hgen; nia.
  - apply Hgen; nia.
Qed.

Lemma thousandths_nearest (q : Q) :
  (0 ≤ Fmt.thousandths q)%Z ∧
  (Qabs (Qabs q * (1000 # 1) - inject_Z (Fmt.thousandths q)) <= 1 # 2)%Q.
Proof.
  apply round_half_even_nearest.
  apply Qmult_le_0_compat; [apply Qabs_nonneg | done].
Qed.

Lemma format_finite_three_decimals (q : Q) :
  three_decimals q (Fmt.format_finite q).
Proof.
  destruct (thousandths_nearest q) as [Hn Hb].
  set (m := (Fmt.thousandths q `mod` 1000)%Z).
  assert (0 ≤ m < 1000)%Z as Hm by (apply Z.mod_pos_bound; lia).
  exists (Fmt.thousandths q), (m / 100)%Z, ((m / 10) mod 10)%Z, (m mod 10)%Z.
  split; [done|].
  split; [clear -Hm; Z.to_euclidean_division_equations; lia|].
  split; [clear -Hm; Z.to_euclidean_division_equations; lia|].
  split; [clear -Hm; Z.to_euclidean_division_equations; lia|].
  split; [fold m; clear -Hm; Z.to_euclidean_division_equations; lia|].
  split; [done|]. reflexivity.
Qed.

(** What [format_3f] writes, case by case. *)
Lemma format_3f_cases (x : PyFloat.t) :
  match x with
  | PyFloat.Finite q => three_decimals q (Fmt.format_3f x)
  | PyFloat.NegZero => Fmt.format_3f x = "-0.000"
  | PyFloat.Infinity negative =>
      Fmt.format_3f x = if negative then "-inf" else "inf"
  | PyFloat.NaN => Fmt.format_3f x = "nan"
  end.
Proof.
  destruct x as [q| |negative|]; try reflexivity.
  apply format_finite_three_decimals.
Qed.

End FmtFacts.

(** ** The pipeline *)

Section Pipeline.

Variable self : RetrievalAugmentedQAPipeline.
Variables (user_query : string) (k : Z).

Lemma run_pipeline_ok_inv (system_kwargs : gmap string PyVal)
    (log log' : list Event) (r : PipelineResult) :
  run_pipeline self user_query k system_kwargs log = (log', Ok r) →
  ∃ context_list answer,
    search_by_text (vector_db_retriever self) user_query k = Ok context_list ∧
    run (llm self) [system_message self system_kwargs;
                    user_message self user_query context_list] = Ok answer ∧
    log' = (log ++ [SearchByText user_query k;
                    LlmRun [system_message self system_kwargs;
                            user_message self user_query context_list]])%list ∧
    r = {| response := answer;
           context := context_list;
           context_count := Z.of_nat (length context_list);
           similarity_scores :=
             if include_scores self
             then Some (numbered score_entry 1 context_list)
             else None;
           prompts_used :=
             {| system := system_message self system_kwargs;
                user := user_message self user_query context_list |} |}.
Proof.
  rewrite run_pipeline_unfold.
  destruct (search_by_text _ _ _) as [ctx|e]; [|by intros [= _ ?]].
  cbn zeta. destruct (run (llm self) _) as [answer|e] eqn:Hllm; [|by intros [= _ ?]].
  intros [= <- <-]. by exists ctx, answer.
Qed.

End Pipeline.

(** C2, as stated, fails: a score that is not a number is written [nan],
    which has no decimal place. *)
Lemma score_without_decimals :
  ∃ (log' : list Event) (r : PipelineResult),
    run_pipeline
      (Sample.pipeline Sample.fixed_llm
         (Sample.fixed_retriever [Sample.not_a_number]) true)
      Sample.question 1 ∅ [] = (log', Ok r) ∧
    context r = [Sample.not_a_number] ∧
    similarity_scores r = Some ["Source 1: nan"] ∧
    Str.contains "." "Source 1: nan" = false.
Proof.
  eexists _, _. split; [vm_compute; reflexivity|].
  cbn [context similarity_scores]. repeat split.
Qed.

(** C2, amended. The [similarity_scores] field of a returned result is
    [None] when the pipeline excludes scores; when it includes them the
    field holds one string per retrieved chunk, in the order search
    returned the chunks, the [i]-th (counting from 1) being ["Source i: "]
    followed by the chunk's score as [.3f] writes it: with three decimals
    when the score is finite, negative zero being [-0.000], and as [nan],
    [inf] or [-inf] when it is not. *)
Theorem similarity_scores_field (self : RetrievalAugmentedQAPipeline)
    (user_query : string) (k : Z) (system_kwargs : gmap string PyVal)
    (log log' : list Event) (r : PipelineResult) :
  run_pipeline self user_query k system_kwargs log = (log', Ok r) →
  search_by_text (vector_db_retriever self) user_query k = Ok (context r) ∧
  (include_scores self = false → similarity_scores r = None) ∧
  (include_scores self = true →
   ∃ l : list string,
     similarity_scores r = Some l ∧
     length l = length (context r) ∧
     ∀ (i : nat) (c : ScoredChunk),
       context r !! i = Some c →
       ∃ num : string,
         l !! i = Some ("Source " +:+ pretty (Z.of_nat i + 1) +:+ ": " +:+ num) ∧
         match raw_score c with
         | PyFloat.Finite q => three_decimals q num
         | PyFloat.NegZero => num = "-0.000"
         | PyFloat.Infinity negative => num = if negative then "-inf" else "inf"
         | PyFloat.NaN => num = "nan"
         end).
Proof.
  intros (ctx & answer & Hs & _ & _ & ->)%run_pipeline_ok_inv. cbn.
  split; [done|]. split; intros ->; [done|].
  exists (numbered score_entry 1 ctx). split; [done|].
  split; [apply length_numbered|].
  intros i c Hc. exists (Fmt.format_3f (raw_score c)).
  rewrite numbered_lookup, Hc. cbn. unfold score_entry.
  replace (1 + Z.of_nat i) with (Z.of_nat i + 1) by lia.
  split; [done|]. apply FmtFacts.format_3f_cases.
Qed.

Lemma similarity_scores_field_witness :
  ∃ (log' : list Event) (r : PipelineResult) (l : list string),
    run_pipeline
      (Sample.pipeline Sample.fixed_llm (Sample.fixed_retriever Sample.hits) true)
      Sample.question 3 Sample.kwargs [] = (log', Ok r) ∧
    similarity_scores r = Some l ∧
    length l = length (context r) ∧
    l !! 0%nat = Some "Source 1: 0.637".
Proof.
  destruct (run_pipeline
      (Sample.pipeline Sample.fixed_llm (Sample.fixed_retriever Sample.hits) true)
      Sample.question 3 Sample.kwargs []) as [log' [r|e]] eqn:Hrun;
    [|by vm_compute in Hrun].
  destruct (similarity_scores_field _ _ _ _ _ _ _ Hrun) as (_ & _ & Hyes).
  destruct (Hyes eq_refl) as (l & Hl & Hlen & _).
  exists log', r, l. split; [reflexivity|]. split; [exact Hl|].
  split; [exact Hlen|].
  vm_compute in Hrun. injection Hrun as _ <-.
  cbn [similarity_scores] in Hl. injection Hl as <-. reflexivity.
Defined.

(** C4. A failure of retrieval, or of generation, is the outcome of the run,
    with the very error the collaborator raised: no result is returned, no
    answer is put in its place, and after a failed retrieval the LLM is not
    called at all. *)
Theorem failures_propagate (self : RetrievalAugmentedQAPipeline)
    (user_query : string) (k : Z) (system_kwargs : gmap string PyVal)
    (log : list Event) (e : Error) :
  (search_by_text (vector_db_retriever self) user_query k = Err e
   ∨ ∃ context_list,
       search_by_text (vector_db_retriever self) user_query k = Ok context_list ∧
       run (llm self) [system_message self system_kwargs;
                       user_message self user_query context_list] = Err e) →
  (run_pipeline self user_query k system_kwargs log).2 = Err e ∧
  (∀ r, (run_pipeline self user_query k system_kwargs log).2 ≠ Ok r) ∧
  (search_by_text (vector_db_retriever self) user_query k = Err e →
   llm_calls (run_pipeline self user_query k system_kwargs log).1 = llm_calls log).
Proof.
  rewrite run_pipeline_unfold. intros [Hs | (ctx & Hs & Hllm)]; rewrite Hs; cbn.
  - repeat split; [done|]. intros _. rewrite llm_calls_app. cbn. apply app_nil_r.
  - rewrite Hllm. repeat split; [done|]. by intros [=].
Qed.

Lemma failures_propagate_witness :
  (run_pipeline
     (Sample.pipeline Sample.fixed_llm Sample.failing_retriever true)
     Sample.question 3 Sample.kwargs []).2 = Err (EmbeddingError "rate limit") ∧
  (run_pipeline
     (Sample.pipeline Sample.failing_llm (Sample.fixed_retriever Sample.hits) true)
     Sample.question 3 Sample.kwargs []).2 = Err (GenerationError "timeout").
Proof.
  split.
  - apply (failures_propagate
             (Sample.pipeline Sample.fixed_llm Sample.failing_retriever true)
             Sample.question 3 Sample.kwargs [] (EmbeddingError "rate limit")).
    left. reflexivity.
  - apply (failures_propagate
             (Sample.pipeline Sample.failing_llm
                (Sample.fixed_retriever Sample.hits) true)
             Sample.question 3 Sample.kwargs [] (GenerationError "timeout")).
    right. exists Sample.hits. split; reflexivity.
Defined.

(** C5, as stated, fails: with no chunk retrieved the LLM is still
    called, and when that call fails so does the run. *)
Lemma empty_retrieval_with_failing_llm :
  search_by_text (Sample.fixed_retriever []) Sample.question 4 = Ok [] ∧
  (run_pipeline
     (Sample.pipeline Sample.failing_llm (Sample.fixed_retriever []) false)
     Sample.question 4 ∅ []).2 = Err (GenerationError "timeout").
Proof. split; vm_compute; reflexivity. Qed.

(** C5, amended. When retrieval returns no chunk the run raises no error
    of its own: both templates render, the user message with an empty
    context and a count of 0, and the LLM is called with the two messages.
    When the LLM answers, the result has an empty context and a count of
    zero; when it fails, its failure is the outcome. The system message
    carries the line that tells the model to respond "I don't know". *)
Theorem empty_retrieval_is_not_an_error (self : RetrievalAugmentedQAPipeline)
    (user_query : string) (k : Z) (system_kwargs : gmap string PyVal)
    (log : list Event) :
  search_by_text (vector_db_retriever self) user_query k = Ok [] →
  ∃ sys usr : Message,
    Prompt.create_message rag_system_prompt
      (<["response_length" :=
           default (PyStr "detailed") (system_kwargs !! "response_length")]>
         (<["response_style" := PyStr (response_style self)]> ∅)) = Ok sys ∧
    Prompt.create_message rag_user_prompt
      (<["similarity_scores" :=
           PyStr (if include_scores self then "Relevance scores: " else "")]>
         (<["context_count" := PyInt 0]>
            (<["context" := PyStr ""]>
               (<["user_query" := PyStr user_query]> ∅)))) = Ok usr ∧
    run_pipeline self user_query k system_kwargs log =
      ((log ++ [SearchByText user_query k; LlmRun [sys; usr]])%list,
       match run (llm self) [sys; usr] with
       | Ok answer =>
           Ok {| response := answer;
                 context := [];
                 context_count := 0;
                 similarity_scores :=
                   if include_scores self then Some [] else None;
                 prompts_used := {| system := sys; user := usr |} |}
       | Err e => Err e
       end) ∧
    content usr =
      user_content "" "0"
        (if include_scores self then "Relevance scores: " else "") user_query ∧
    Str.contains
      ("- If the context doesn't contain relevant information, respond with "
         +:+ String "034"%char ("I don't know" +:+ String "034"%char ""))
      (content sys) = true.
Proof.
  intros Hs.
  assert (system_message self system_kwargs =
          {| role := System;
             content := system_content (response_style self)
               (py_str (default (PyStr "detailed")
                          (system_kwargs !! "response_length"))) |}) as Hsys.
  { unfold system_message, response_length_of.
    by destruct (system_kwargs !! "response_length"). }
  assert (user_message self user_query [] =
          {| role := User;
             content := user_content "" (pretty 0)
               (if include_scores self then "Relevance scores: " else "")
               user_query |}) as Husr.
  { unfold user_message, scores_line. cbn. by destruct (include_scores self). }
  rewrite run_pipeline_unfold, Hs. cbn zeta.
  rewrite create_system_message, create_user_message, <- Hsys, <- Husr.
  eexists _, _. split; [reflexivity|]. split; [reflexivity|].
  split; [by destruct (run (llm self) _)|].
  rewrite Husr, Hsys. cbn [content]. split; [reflexivity|].
  exact (StrFacts.contains_app
           ("You are a knowledgeable assistant that answers questions based strictly on provided context." +:+ nl +:+
            nl +:+
            "Instructions:" +:+ nl +:+
            "- Only answer questions using information from the provided context" +:+ nl)
           ("- If the context doesn't contain relevant information, respond with "
              +:+ String "034"%char ("I don't know" +:+ String "034"%char ""))
           _).
Qed.

Lemma empty_retrieval_is_not_an_error_witness :
  ∃ (log' : list Event) (r : PipelineResult),
    run_pipeline
      (Sample.pipeline Sample.fixed_llm (Sample.fixed_retriever []) false)
      Sample.question 4 ∅ [] = (log', Ok r) ∧
    context r = [] ∧ context_count r = 0.
Proof.
  destruct (empty_retrieval_is_not_an_error
              (Sample.pipeline Sample.fixed_llm (Sample.fixed_retriever []) false)
              Sample.question 4 ∅ [] eq_refl)
    as (sys & usr & _ & _ & Hrun & _).
  eexists _, _. split; [exact Hrun|]. split; reflexivity.
Defined.

(** C6. The system message of a run is the system template filled with the
    pipeline's [response_style] and with the caller's [response_length]
    when the keyword arguments give one, with "detailed" when they give
    none; the template's own defaults are not used. *)
Theorem system_message_parameters (self : RetrievalAugmentedQAPipeline)
    (user_query : string) (k : Z) (system_kwargs : gmap string PyVal)
    (log log' : list Event) (r : PipelineResult) :
  run_pipeline self user_query k system_kwargs log = (log', Ok r) →
  ∃ len : string,
    system (prompts_used r) =
      {| role := System;
         content := system_content (response_style self) len |} ∧
    (∀ v, system_kwargs !! "response_length" = Some v → len = py_str v) ∧
    (system_kwargs !! "response_length" = None → len = "detailed") ∧
    Prompt.create_message rag_system_prompt
      (<["response_length" :=
           match system_kwargs !! "response_length" with
           | Some v => v
           | None => PyStr "detailed"
           end]>
         (<["response_style" := PyStr (response_style self)]> ∅))
    = Ok (system (prompts_used r)).
Proof.
  intros (ctx & answer & _ & _ & _ & ->)%run_pipeline_ok_inv. cbn.
  exists (response_length_of system_kwargs). split; [done|].
  rewrite create_system_message. unfold system_message, response_length_of.
  destruct (system_kwargs !! "response_length") as [v|]; repeat split; try done.
  by intros ? [= ->].
Qed.

Lemma system_message_parameters_witness :
  ∃ (log' : list Event) (r : PipelineResult),
    run_pipeline
      (Sample.pipeline Sample.fixed_llm (Sample.fixed_retriever Sample.hits) false)
      Sample.question 3 Sample.kwargs [] = (log', Ok r) ∧
    system (prompts_used r) =
      {| role := System;
         content := system_content "detailed" "comprehensive" |}.
Proof.
  destruct (run_pipeline
              (Sample.pipeline Sample.fixed_llm
                 (Sample.fixed_retriever Sample.hits) false)
              Sample.question 3 Sample.kwargs []) as [log' [r|e]] eqn:Hrun;
    [|by vm_compute in Hrun].
  exists log', r. split; [reflexivity|].
  destruct (system_message_parameters _ _ _ _ _ _ _ Hrun)
    as (len & Hsys & Hlen & _).
  rewrite Hsys, (Hlen (PyStr "comprehensive") eq_refl). reflexivity.
Defined.

(** C7. In a run that returns a result the LLM was invoked once, with the
    rendered system message followed by the rendered user message, and the
    [prompts_used] field holds these same two messages. *)
Theorem llm_invoked_once_with_both_prompts
    (self : RetrievalAugmentedQAPipeline)
    (user_query : string) (k : Z) (system_kwargs : gmap string PyVal)
    (log log' : list Event) (r : PipelineResult) :
  run_pipeline self user_query k system_kwargs log = (log', Ok r) →
  ∃ (sys usr : Message) (count : Z) (block line : string),
    Prompt.create_message rag_system_prompt
      (<["response_length" :=
           default (PyStr "detailed") (system_kwargs !! "response_length")]>
         (<["response_style" := PyStr (response_style self)]> ∅)) = Ok sys ∧
    Prompt.create_message rag_user_prompt
      (<["similarity_scores" := PyStr line]>
         (<["context_count" := PyInt count]>
            (<["context" := PyStr block]>
               (<["user_query" := PyStr user_query]> ∅)))) = Ok usr ∧
    count = Z.of_nat (length (context r)) ∧
    block = context_block (context r) ∧
    line = scores_line (include_scores self) (context r) ∧
    llm_calls log' = (llm_calls log ++ [[sys; usr]])%list ∧
    run (llm self) [sys; usr] = Ok (response r) ∧
    prompts_used r = {| system := sys; user := usr |}.
Proof.
  intros (ctx & answer & _ & Hllm & -> & ->)%run_pipeline_ok_inv. cbn.
  exists (system_message self system_kwargs), (user_message self user_query ctx),
    (Z.of_nat (length ctx)), (context_block ctx),
    (scores_line (include_scores self) ctx).
  rewrite create_system_message, create_user_message, llm_calls_app.
  split; [|done].
  unfold system_message, response_length_of.
  by destruct (system_kwargs !! "response_length").
Qed.

Lemma llm_invoked_once_with_both_prompts_witness :
  ∃ (log' : list Event) (r : PipelineResult),
    run_pipeline
      (Sample.pipeline Sample.fixed_llm (Sample.fixed_retriever Sample.hits) true)
      Sample.question 2 Sample.kwargs [] = (log', Ok r) ∧
    llm_calls log' = [[system (prompts_used r); user (prompts_used r)]].
Proof.
  destruct (run_pipeline
              (Sample.pipeline Sample.fixed_llm
                 (Sample.fixed_retriever Sample.hits) true)
              Sample.question 2 Sample.kwargs []) as [log' [r|e]] eqn:Hrun;
    [|by vm_compute in Hrun].
  exists log', r. split; [reflexivity|].
  destruct (llm_invoked_once_with_both_prompts _ _ _ _ _ _ _ Hrun)
    as (sys & usr & count & block & line & _ & _ & _ & _ & _ & Hcalls & _ & Hp).
  rewrite Hcalls, Hp. reflexivity.
Defined.

(** C9. Two calls that differ only in keyword arguments other than
    [response_length] have the same outcome, result or failure, and make the
    same collaborator calls. *)
Theorem extra_kwargs_are_ignored (self : RetrievalAugmentedQAPipeline)
    (user_query : string) (k : Z) (kwargs1 kwargs2 : gmap string PyVal)
    (log : list Event) :
  kwargs1 !! "response_length" = kwargs2 !! "response_length" →
  run_pipeline self user_query k kwargs1 log =
  run_pipeline self user_query k kwargs2 log.
Proof.
  intros H. unfold run_pipeline. by rewrite H.
Qed.

Lemma extra_kwargs_are_ignored_witness :
  run_pipeline
    (Sample.pipeline Sample.fixed_llm (Sample.fixed_retriever Sample.hits) true)
    Sample.question 3 Sample.kwargs [] =
  run_pipeline
    (Sample.pipeline Sample.fixed_llm (Sample.fixed_retriever Sample.hits) true)
    Sample.question 3 Sample.kwargs_plain [].
Proof.
  apply (extra_kwargs_are_ignored
           (Sample.pipeline Sample.fixed_llm
              (Sample.fixed_retriever Sample.hits) true)
           Sample.question 3 Sample.kwargs Sample.kwargs_plain []).
  vm_compute. reflexivity.
Defined.

(** C10. In a returned result [context_count] is the length of [context],
    and when the pipeline includes scores [similarity_scores] is a list of
    that same length. *)
Theorem result_counts_agree (self : RetrievalAugmentedQAPipeline)
    (user_query : string) (k : Z) (system_kwargs : gmap string PyVal)
    (log log' : list Event) (r : PipelineResult) :
  run_pipeline self user_query k system_kwargs log = (log', Ok r) →
  context_count r = Z.of_nat (length (context r)) ∧
  (include_scores self = true →
   ∃ l : list string,
     similarity_scores r = Some l ∧ length l = length (context r)).
Proof.
  intros (ctx & answer & _ & _ & _ & ->)%run_pipeline_ok_inv. cbn.
  split; [done|]. intros ->. exists (numbered score_entry 1 ctx).
  split; [done | apply length_numbered].
Qed.

Lemma result_counts_agree_witness :
  ∃ (log' : list Event) (r : PipelineResult),
    run_pipeline
      (Sample.pipeline Sample.fixed_llm (Sample.fixed_retriever Sample.hits) true)
      Sample.question 2 ∅ [] = (log', Ok r) ∧
    context_count r = Z.of_nat (length (context r)) ∧
    ∃ l : list string,
      similarity_scores r = Some l ∧ length l = length (context r).
Proof.
  destruct (run_pipeline
              (Sample.pipeline Sample.fixed_llm
                 (Sample.fixed_retriever Sample.hits) true)
              Sample.question 2 ∅ []) as [log' [r|e]] eqn:Hrun;
    [|by vm_compute in Hrun].
  exists log', r. split; [reflexivity|].
  destruct (result_counts_agree _ _ _ _ _ _ _ Hrun) as [Hc Hl].
  split; [exact Hc | exact (Hl eq_refl)].
Defined.

(** ** The context block *)

Lemma context_block_rstrip (context_list : list ScoredChunk) :
  context_block context_list =
    Str.rstrip (Str.join (nl +:+ nl) (numbered source_entry 1 context_list)).
Proof.
  unfold context_block, Str.strip. destruct context_list as [|c rest]; [done|].
  rewrite StrFacts.paragraphs_join by done.
  set (J := Str.join (nl +:+ nl) (numbered source_entry 1 (c :: rest))).
  assert (∃ T, J = String "[" T) as [T HT].
  { unfold J. cbn [numbered Str.join].
    destruct (numbered source_entry (1 + 1) rest); eexists; reflexivity. }
  rewrite <- (StrFacts.rstrip_app_space J (nl +:+ nl)) by done.
  f_equal. by rewrite HT.
Qed.

Lemma context_block_join (context_list : list ScoredChunk)
    (c : ScoredChunk) (ch : ascii) :
  last context_list = Some c →
  Str.last_char (text (chunk c)) = Some ch →
  Str.is_space ch = false →
  context_block context_list =
    Str.join (nl +:+ nl) (numbered source_entry 1 context_list).
Proof.
  intros [l ->]%last_Some Hch Hsp. rewrite context_block_rstrip.
  destruct (StrFacts.last_char_snoc
              (Str.join (nl +:+ nl) (numbered source_entry 1 (l ++ [c]))) ch)
    as [s' ->]; [|by apply StrFacts.rstrip_last_nonspace].
  rewrite numbered_snoc.
  eapply StrFacts.last_char_join; [apply last_snoc|].
  unfold source_entry. by do 3 apply StrFacts.last_char_app.
Qed.

(** C3, as stated, fails: a retrieved chunk whose text ends in a space is
    not embedded as its full ["[Source 1]: <chunk text>"] entry, since the
    block is stripped before it is rendered; the entry without the final
    space is what the message contains. *)
Lemma context_block_loses_final_whitespace :
  ∃ (log' : list Event) (r : PipelineResult),
    run_pipeline
      (Sample.pipeline Sample.fixed_llm
         (Sample.fixed_retriever [Sample.open_ended]) false)
      Sample.question 1 ∅ [] = (log', Ok r) ∧
    context r = [Sample.open_ended] ∧
    source_entry 1 Sample.open_ended =
      "[Source 1]: U-6 players learn through play " ∧
    Str.contains (source_entry 1 Sample.open_ended)
      (content (user (prompts_used r))) = false ∧
    Str.contains "[Source 1]: U-6 players learn through play"
      (content (user (prompts_used r))) = true.
Proof.
  eexists _, _. split; [vm_compute; reflexivity|].
  cbn [context prompts_used user content].
  repeat split; vm_compute; reflexivity.
Qed.

(** C3, amended. The user message of a run is the user template filled
    with the query, the number of retrieved chunks, the scores line (the
    empty string when the pipeline excludes scores) and the context block.
    The block is made of one ["[Source i]: <chunk text>"] entry per
    retrieved chunk, numbered from 1 in search order and separated by blank
    lines, with the whitespace at the end of the block removed; it is
    exactly these entries when the last chunk's text ends in a character
    that is not whitespace. *)
Theorem user_message_contents (self : RetrievalAugmentedQAPipeline)
    (user_query : string) (k : Z) (system_kwargs : gmap string PyVal)
    (log log' : list Event) (r : PipelineResult) :
  run_pipeline self user_query k system_kwargs log = (log', Ok r) →
  ∃ (entries : list string) (block line : string),
    user (prompts_used r) =
      {| role := User;
         content := user_content block
                      (pretty (Z.of_nat (length (context r)))) line
                      user_query |} ∧
    length entries = length (context r) ∧
    (∀ (i : nat) (c : ScoredChunk),
       context r !! i = Some c →
       entries !! i =
         Some ("[Source " +:+ pretty (Z.of_nat i + 1) +:+ "]: "
                 +:+ text (chunk c))) ∧
    block = Str.rstrip (Str.join (nl +:+ nl) entries) ∧
    (∀ (c : ScoredChunk) (ch : ascii),
       last (context r) = Some c →
       Str.last_char (text (chunk c)) = Some ch →
       Str.is_space ch = false →
       block = Str.join (nl +:+ nl) entries) ∧
    (include_scores self = false → line = "").
Proof.
  intros (ctx & answer & _ & _ & _ & ->)%run_pipeline_ok_inv. cbn.
  exists (numbered source_entry 1 ctx), (context_block ctx),
    (scores_line (include_scores self) ctx).
  split; [done|]. split; [apply length_numbered|]. split.
  { intros i c Hc. rewrite numbered_lookup, Hc. cbn. unfold source_entry.
    by replace (1 + Z.of_nat i) with (Z.of_nat i + 1) by lia. }
  split; [apply context_block_rstrip|]. split.
  - intros c ch. apply context_block_join.
  - by intros ->.
Qed.

Lemma user_message_contents_witness :
  ∃ (log' : list Event) (r : PipelineResult),
    run_pipeline
      (Sample.pipeline Sample.fixed_llm (Sample.fixed_retriever Sample.hits) false)
      Sample.question 2 Sample.kwargs [] = (log', Ok r) ∧
    ∃ block : string,
      user (prompts_used r) =
        {| role := User;
           content := user_content block
                        (pretty (Z.of_nat (length (context r)))) ""
                        Sample.question |}.
Proof.
  destruct (run_pipeline
              (Sample.pipeline Sample.fixed_llm
                 (Sample.fixed_retriever Sample.hits) false)
              Sample.question 2 Sample.kwargs []) as [log' [r|e]] eqn:Hrun;
    [|by vm_compute in Hrun].
  exists log', r. split; [reflexivity|].
  destruct (user_message_contents _ _ _ _ _ _ _ Hrun)
    as (entries & block & line & Husr & _ & _ & _ & _ & Hline).
  exists block. rewrite Husr, (Hline eq_refl). reflexivity.
Defined.

(** ** Search *)

Module SearchFacts.
Import VectorStore.

Lemma insert_desc_perm (x : ScoredChunk) (l : list ScoredChunk) :
  insert_desc x l ≡ₚ x :: l.
Proof.
  induction l as [|y l IH]; cbn [insert_desc]; [done|].
  destruct (Qle_bool _ _); [done|]. rewrite IH. apply Permutation_swap.
Qed.

Lemma sort_desc_perm (l : list ScoredChunk) : sort_desc l ≡ₚ l.
Proof.
  induction l as [|x l IH]; cbn [sort_desc]; [done|].
  by rewrite insert_desc_perm, IH.
Qed.

Lemma insert_desc_hd (x y : ScoredChunk) (l : list ScoredChunk) :
  ranks_before y x → HdRel ranks_before y l →
  HdRel ranks_before y (insert_desc x l).
Proof.
  intros Hyx Hl. destruct l as [|z l]; cbn [insert_desc]; [by constructor|].
  destruct (Qle_bool _ _); constructor; [done|].
  by inversion Hl.
Qed.

Lemma insert_desc_sorted (x : ScoredChunk) (l : list ScoredChunk) :
  Sorted ranks_before l → Sorted ranks_before (insert_desc x l).
Proof.
  induction 1 as [|y l Hl IH Hhd]; cbn [insert_desc].
  - by repeat constructor.
  - destruct (Qle_bool (similarity y) (similarity x)) eqn:E.
    + apply Qle_bool_iff in E. by repeat constructor.
    + constructor; [done|]. apply insert_desc_hd; [|done].
      unfold ranks_before. apply Qlt_le_weak, Qnot_le_lt.
      intros Hle%Qle_bool_iff. congruence.
Qed.

Lemma sort_desc_sorted (l : list ScoredChunk) :
  Sorted ranks_before (sort_desc l).
Proof.
  induction l as [|x l IH]; cbn [sort_desc]; [constructor|].
  by apply insert_desc_sorted.
Qed.

Lemma take_sorted (n : nat) (l : list ScoredChunk) :
  Sorted ranks_before l → Sorted ranks_before (take n l).
Proof.
  intros Hl. revert n. induction Hl as [|x l Hl IH Hhd]; intros [|n]; cbn [take];
    try constructor; [apply IH|].
  destruct Hhd as [|y l' Hxy]; [destruct n; constructor|].
  destruct n; by constructor.
Qed.

Lemma sorted_adjacent (l : list ScoredChunk) (i : nat) (a b : ScoredChunk) :
  Sorted ranks_before l → l !! i = Some a → l !! S i = Some b →
  ranks_before a b.
Proof.
  intros Hl. revert i. induction Hl as [|x l Hl IH Hhd]; intros i; [done|].
  destruct i as [|i]; cbn.
  - intros [= ->] Hb. destruct Hhd as [|y l' Hxy]; [done|].
    cbn in Hb. by simplify_eq.
  - apply IH.
Qed.

Lemma ranks_before_trans : Transitive ranks_before.
Proof. intros x y z Hxy Hyz. unfold ranks_before in *. by eapply Qle_trans. Qed.

Lemma sorted_ranked (l : list ScoredChunk) (i j : nat) (a b : ScoredChunk) :
  Sorted ranks_before l → (i ≤ j)%nat →
  l !! i = Some a → l !! j = Some b → ranks_before a b.
Proof.
  intros Hl%Sorted_StronglySorted; [|apply ranks_before_trans]. revert i j.
  induction Hl as [|x l Hl IH Hall]; intros i j Hij; [done|].
  destruct i as [|i], j as [|j]; cbn; try lia.
  - intros [= ->] [= ->]. apply Qle_refl.
  - intros [= ->] Hb. rewrite Forall_forall in Hall.
    apply Hall, list_elem_of_lookup. eauto.
  - apply IH. lia.
Qed.

End SearchFacts.

(** C1. On a store that holds at least one entry, and for [k > 0], search
    succeeds and returns the first [k] entries of the ranking of all stored
    entries by similarity, highest first: [min k n] results for a store of
    [n] entries, each at least as similar as the one after it, never more
    than [k] and never more than [n]. *)
Theorem search_returns_top_k
    (cosine_similarity :
       VectorStore.EmbeddingVector → VectorStore.EmbeddingVector → Q)
    (store : VectorStore.t) (query_vector : VectorStore.EmbeddingVector)
    (k : Z) :
  store ≠ [] →
  0 < k →
  ∃ ranked results : list ScoredChunk,
    VectorStore.search cosine_similarity store query_vector k = Ok results ∧
    ranked ≡ₚ map (VectorStore.score cosine_similarity query_vector) store ∧
    results = take (Z.to_nat k) ranked ∧
    (∀ (i j : nat) (a b : ScoredChunk),
       (i ≤ j)%nat → ranked !! i = Some a → ranked !! j = Some b →
       (similarity b <= similarity a)%Q) ∧
    length results = Nat.min (Z.to_nat k) (length store) ∧
    (∀ (i : nat) (a b : ScoredChunk),
       results !! i = Some a → results !! S i = Some b →
       (similarity b <= similarity a)%Q) ∧
    (Z.of_nat (length results) ≤ k)%Z ∧
    (length results ≤ length store)%nat.
Proof.
  intros Hne Hk.
  set (scored := map (VectorStore.score cosine_similarity query_vector) store).
  exists (VectorStore.sort_desc scored), (take (Z.to_nat k) (VectorStore.sort_desc scored)).
  assert (length (take (Z.to_nat k) (VectorStore.sort_desc scored))
          = Nat.min (Z.to_nat k) (length store)) as Hlen.
  { rewrite length_take, (Permutation_length (SearchFacts.sort_desc_perm scored)).
    unfold scored. by rewrite length_map. }
  split; [by destruct store|].
  split; [apply SearchFacts.sort_desc_perm|].
  split; [done|]. split.
  { intros i j a b Hij. apply SearchFacts.sorted_ranked; [|done].
    apply SearchFacts.sort_desc_sorted. }
  split; [done|]. split.
  { intros i a b. apply SearchFacts.sorted_adjacent, SearchFacts.take_sorted,
      SearchFacts.sort_desc_sorted. }
  rewrite Hlen. lia.
Qed.

Lemma search_returns_top_k_witness :
  VectorStore.search Sample.dot Sample.store [1%Q; 0%Q] 2 =
    Ok [ {| chunk := VectorStore.entry_chunk (Sample.entry "passing" []).2;
            raw_score := PyFloat.Finite 1 |};
         {| chunk := VectorStore.entry_chunk (Sample.entry "warm-up" []).2;
            raw_score := PyFloat.Finite (15 # 25) |} ] ∧
  ∃ ranked results : list ScoredChunk,
    VectorStore.search Sample.dot Sample.store [1%Q; 0%Q] 2 = Ok results ∧
    results = take 2 ranked ∧
    length results = 2%nat.
Proof.
  split; [vm_compute; reflexivity|].
  destruct (search_returns_top_k Sample.dot Sample.store [1%Q; 0%Q] 2)
    as (ranked & results & Hs & _ & Ht & _ & Hlen & _); [done | lia |].
  exists ranked, results. split; [exact Hs|]. split; [exact Ht | exact Hlen].
Defined.

(** ** Chunking *)

Module ChunkFacts.
Import TextChunker.

Lemma length_substring (s : string) (n m : nat) :
  String.length (String.substring n m s) = Nat.min m (String.length s - n).
Proof.
  revert n m. induction s as [|c s IH]; intros [|n] [|m]; cbn; try done.
  all: rewrite IH; lia.
Qed.

Lemma length_0_iff (s : string) : String.length s = 0%nat ↔ s = "".
Proof. by destruct s. Qed.

(** A window opened inside the document is emitted, and is the last one
    exactly when it reaches the end of the document. *)
Lemma windows_step (fuel : nat) (d : Document) (chunk_size stride start : nat) :
  (start < String.length (doc_text d))%nat → (0 < chunk_size)%nat →
  windows (S fuel) d chunk_size stride start =
    {| text := String.substring start chunk_size (doc_text d);
       source_id := doc_id d;
       offset := start;
       span := Nat.min chunk_size (String.length (doc_text d) - start) |} ::
    (if (String.length (doc_text d) <=? start + chunk_size)%nat
     then []
     else windows fuel d chunk_size stride (start + stride)).
Proof.
  intros Hstart Hsize. cbn [windows].
  rewrite bool_decide_eq_false_2, length_substring; [done|].
  rewrite <- length_0_iff, length_substring. lia.
Qed.

(** A window opened at or after the end of the document is empty: nothing
    is emitted. *)
Lemma windows_past_end (fuel : nat) (d : Document) (chunk_size stride start : nat) :
  (String.length (doc_text d) ≤ start)%nat →
  windows fuel d chunk_size stride start = [].
Proof.
  intros Hstart. destruct fuel; [done|]. cbn [windows].
  rewrite bool_decide_eq_true_2; [done|].
  apply length_0_iff. rewrite length_substring. lia.
Qed.

(** The fuel [split_document] gives is never what stops the recursion:
    any larger amount yields the same chunks. *)
Lemma windows_fuel (fuel fuel' : nat) (d : Document)
    (chunk_size stride start : nat) :
  (0 < stride)%nat →
  (String.length (doc_text d) - start ≤ fuel)%nat → (fuel ≤ fuel')%nat →
  windows fuel d chunk_size stride start =
  windows fuel' d chunk_size stride start.
Proof.
  intros Hstride. revert fuel' start.
  induction fuel as [|fuel IH]; intros fuel' start Hlen Hle.
  - rewrite (windows_past_end fuel') by lia. done.
  - destruct fuel' as [|fuel']; [lia|]. cbn [windows].
    destruct (bool_decide _); [done|]. f_equal.
    destruct (_ <=? _)%nat; [done|]. apply IH; lia.
Qed.

(** A non-empty document shorter than the chunk size is one chunk, the
    whole document. *)
Lemma split_short_document (d : Document) (chunk_size overlap : Z) :
  (0 ≤ overlap < chunk_size)%Z →
  (0 < String.length (doc_text d))%nat →
  (Z.of_nat (String.length (doc_text d)) ≤ chunk_size)%Z →
  ∃ c, split [d] chunk_size overlap = Ok [c] ∧ text c = doc_text d.
Proof.
  intros Hcfg Hpos Hshort. unfold split.
  destruct (Z.leb_spec chunk_size 0); [lia|].
  destruct (Z.leb_spec chunk_size overlap); [lia|]. cbn [orb map concat].
  unfold split_document.
  destruct (String.length (doc_text d)) as [|n] eqn:Hlen; [lia|].
  rewrite windows_step by lia.
  destruct (Nat.leb_spec (String.length (doc_text d)) (0 + Z.to_nat chunk_size));
    [|lia].
  eexists. split; [reflexivity|]. cbn [text].
  assert (∀ s m, (String.length s ≤ m)%nat → String.substring 0 m s = s) as Hsub.
  { clear. induction s as [|c s IH]; intros [|m]; cbn; try done; try lia.
    intros. f_equal. apply IH. lia. }
  apply Hsub. lia.
Qed.

End ChunkFacts.

(** C8. A document of 250 characters, split with a chunk size of 100 and
    an overlap of 20, yields exactly three chunks: the windows that start at
    0, 80 and 160, of 100, 100 and 90 characters, each starting inside the
    one before it. *)
Theorem split_250_by_100_overlap_20 (d : TextChunker.Document) :
  String.length (TextChunker.doc_text d) = 250%nat →
  ∃ c1 c2 c3 : Chunk,
    TextChunker.split [d] 100 20 = Ok [c1; c2; c3] ∧
    length [c1; c2; c3] = 3%nat ∧
    (offset c1 = 0 ∧ span c1 = 100 ∧
     text c1 = String.substring 0 100 (TextChunker.doc_text d))%nat ∧
    (offset c2 = 80 ∧ span c2 = 100 ∧
     text c2 = String.substring 80 100 (TextChunker.doc_text d))%nat ∧
    (offset c3 = 160 ∧ span c3 = 90 ∧
     text c3 = String.substring 160 100 (TextChunker.doc_text d) ∧
     String.length (text c3) = 90)%nat ∧
    (offset c2 < offset c1 + span c1 ∧ offset c3 < offset c2 + span c2)%nat.
Proof.
  intros Hlen. unfold TextChunker.split, TextChunker.split_document.
  cbn [Z.leb Z.compare Pos.compare Pos.compare_cont orb map concat].
  rewrite app_nil_r, Hlen.
  change (Z.to_nat 100) with 100%nat. change (Z.to_nat (100 - 20)) with 80%nat.
  do 3 (rewrite ChunkFacts.windows_step by (rewrite ?Hlen; lia); rewrite Hlen).
  change (250 <=? 0 + 100)%nat with false.
  change (250 <=? 0 + 80 + 100)%nat with false.
  change (250 <=? 0 + 80 + 80 + 100)%nat with true.
  cbn iota.
  eexists _, _, _. split; [reflexivity|]. cbn [offset span text].
  rewrite ChunkFacts.length_substring, Hlen.
  repeat split; vm_compute; lia.
Qed.

Lemma split_250_by_100_overlap_20_witness :
  String.length (TextChunker.filler 250 "a") = 250%nat ∧
  ∃ c1 c2 c3 : Chunk,
    TextChunker.split
      [{| TextChunker.doc_text := TextChunker.filler 250 "a";
          TextChunker.doc_id := "manual" |}] 100 20 = Ok [c1; c2; c3] ∧
    (offset c1, offset c2, offset c3) = (0, 80, 160)%nat ∧
    (span c1, span c2, span c3) = (100, 100, 90)%nat.
Proof.
  split; [vm_compute; reflexivity|].
  destruct (split_250_by_100_overlap_20
              {| TextChunker.doc_text := TextChunker.filler 250 "a";
                 TextChunker.doc_id := "manual" |})
    as (c1 & c2 & c3 & Hs & _ & (Ho1 & Hs1 & _) & (Ho2 & Hs2 & _)
          & (Ho3 & Hs3 & _) & _);
    [vm_compute; reflexivity|].
  exists c1, c2, c3. split; [exact Hs|].
  rewrite Ho1, Ho2, Ho3, Hs1, Hs2, Hs3. split; reflexivity.
Defined.

(** * Further properties of the pipeline *)

(** X1. Whatever its outcome, a run leaves the earlier log untouched and
    first calls [search_by_text] once, with the caller's query and [k] as
    given; when retrieval fails nothing else is called, and when it succeeds
    the LLM is called once, with the system message followed by the user
    message, also when that call then fails. *)
Theorem run_pipeline_collaborator_calls (self : RetrievalAugmentedQAPipeline)
    (user_query : string) (k : Z) (system_kwargs : gmap string PyVal)
    (log : list Event) :
  ∃ tail : list Event,
    (run_pipeline self user_query k system_kwargs log).1 =
      (log ++ SearchByText user_query k :: tail)%list ∧
    match search_by_text (vector_db_retriever self) user_query k with
    | Err _ => tail = []
    | Ok context_list =>
        tail = [LlmRun [system_message self system_kwargs;
                        user_message self user_query context_list]]
    end.
Proof.
  rewrite run_pipeline_unfold.
  destruct (search_by_text _ _ _) as [ctx|e]; cbn; eauto.
Qed.

(** X2. A run fails only when a collaborator does: the error it returns is
    the one [search_by_text] raised, or the one the LLM raised on the two
    rendered messages. Rendering the two strict templates never fails. *)
Theorem run_pipeline_failure_origin (self : RetrievalAugmentedQAPipeline)
    (user_query : string) (k : Z) (system_kwargs : gmap string PyVal)
    (log : list Event) (e : Error) :
  (run_pipeline self user_query k system_kwargs log).2 = Err e →
  search_by_text (vector_db_retriever self) user_query k = Err e
  ∨ ∃ context_list sys usr,
      search_by_text (vector_db_retriever self) user_query k = Ok context_list ∧
      Prompt.create_message rag_system_prompt
        (<["response_length" :=
             default (PyStr "detailed") (system_kwargs !! "response_length")]>
           (<["response_style" := PyStr (response_style self)]> ∅)) = Ok sys ∧
      Prompt.create_message rag_user_prompt
        (<["similarity_scores" :=
             PyStr (scores_line (include_scores self) context_list)]>
           (<["context_count" := PyInt (Z.of_nat (length context_list))]>
              (<["context" := PyStr (context_block context_list)]>
                 (<["user_query" := PyStr user_query]> ∅)))) = Ok usr ∧
      run (llm self) [sys; usr] = Err e.
Proof.
  rewrite run_pipeline_unfold.
  destruct (search_by_text _ _ _) as [ctx|e']; cbn; [|intros [= ->]; by left].
  destruct (run (llm self) _) as [answer|e'] eqn:Hllm; [done|]. intros [= ->].
  right. exists ctx, (system_message self system_kwargs),
    (user_message self user_query ctx).
  rewrite create_system_message, create_user_message.
  split; [done|]. split; [|done].
  unfold system_message, response_length_of.
  by destruct (system_kwargs !! "response_length").
Qed.

Lemma run_pipeline_failure_origin_witness :
  (run_pipeline
     (Sample.pipeline Sample.failing_llm (Sample.fixed_retriever Sample.hits) true)
     Sample.question 3 Sample.kwargs []).2 = Err (GenerationError "timeout") ∧
  (search_by_text (Sample.fixed_retriever Sample.hits) Sample.question 3
     = Err (GenerationError "timeout")
   ∨ ∃ context_list : list ScoredChunk,
       search_by_text (Sample.fixed_retriever Sample.hits) Sample.question 3
         = Ok context_list).
Proof.
  assert ((run_pipeline
     (Sample.pipeline Sample.failing_llm (Sample.fixed_retriever Sample.hits) true)
     Sample.question 3 Sample.kwargs []).2 = Err (GenerationError "timeout"))
    as Hrun by (vm_compute; reflexivity).
  split; [exact Hrun|].
  destruct (run_pipeline_failure_origin _ _ _ _ _ _ Hrun)
    as [Hs | (ctx & sys & usr & Hs & _)].
  - left. exact Hs.
  - right. exists ctx. exact Hs.
Defined.

(** X3. The system message depends on nothing but the pipeline's
    [response_style] and the [response_length] keyword: two runs that agree
    on these carry the same system message, whatever their queries, their
    [k], their retrievers and what these return, their LLMs and their
    [include_scores]. *)
Theorem system_prompt_ignores_query_and_context
    (self1 self2 : RetrievalAugmentedQAPipeline)
    (query1 query2 : string) (k1 k2 : Z) (kwargs1 kwargs2 : gmap string PyVal)
    (log1 log2 log1' log2' : list Event) (r1 r2 : PipelineResult) :
  response_style self1 = response_style self2 →
  kwargs1 !! "response_length" = kwargs2 !! "response_length" →
  run_pipeline self1 query1 k1 kwargs1 log1 = (log1', Ok r1) →
  run_pipeline self2 query2 k2 kwargs2 log2 = (log2', Ok r2) →
  system (prompts_used r1) = system (prompts_used r2).
Proof.
  intros Hstyle Hlen (? & ? & _ & _ & _ & ->)%run_pipeline_ok_inv
    (? & ? & _ & _ & _ & ->)%run_pipeline_ok_inv. cbn.
  unfold system_message, response_length_of. by rewrite Hstyle, Hlen.
Qed.

Lemma system_prompt_ignores_query_and_context_witness :
  ∃ (log1' log2' : list Event) (r1 r2 : PipelineResult),
    run_pipeline
      (Sample.pipeline Sample.fixed_llm (Sample.fixed_retriever Sample.hits) true)
      Sample.question 3 Sample.kwargs [] = (log1', Ok r1) ∧
    run_pipeline
      (Sample.pipeline Sample.fixed_llm
         (Sample.fixed_retriever [Sample.open_ended]) false)
      "How long is a U-6 game?" 1 Sample.kwargs_plain [] = (log2', Ok r2) ∧
    context r1 ≠ context r2 ∧
    system (prompts_used r1) = system (prompts_used r2).
Proof.
  destruct (run_pipeline
      (Sample.pipeline Sample.fixed_llm (Sample.fixed_retriever Sample.hits) true)
      Sample.question 3 Sample.kwargs []) as [log1' [r1|e]] eqn:H1;
    [|by vm_compute in H1].
  destruct (run_pipeline
      (Sample.pipeline Sample.fixed_llm
         (Sample.fixed_retriever [Sample.open_ended]) false)
      "How long is a U-6 game?" 1 Sample.kwargs_plain []) as [log2' [r2|e]] eqn:H2;
    [|by vm_compute in H2].
  exists log1', log2', r1, r2. split; [reflexivity|]. split; [reflexivity|].
  split.
  - vm_compute in H1, H2. injection H1 as _ <-. injection H2 as _ <-. cbn.
    discriminate.
  - eapply system_prompt_ignores_query_and_context;
      [ | | exact H1 | exact H2]; reflexivity.
Defined.

(** X4. The user message depends on nothing but the query, the retrieved
    chunks and [include_scores]: the keyword arguments, [response_length]
    included, the [response_style] and the LLM leave it unchanged. *)
Theorem user_prompt_ignores_system_parameters
    (self1 self2 : RetrievalAugmentedQAPipeline)
    (user_query : string) (k1 k2 : Z) (kwargs1 kwargs2 : gmap string PyVal)
    (log1 log2 log1' log2' : list Event) (r1 r2 : PipelineResult) :
  include_scores self1 = include_scores self2 →
  run_pipeline self1 user_query k1 kwargs1 log1 = (log1', Ok r1) →
  run_pipeline self2 user_query k2 kwargs2 log2 = (log2', Ok r2) →
  context r1 = context r2 →
  user (prompts_used r1) = user (prompts_used r2).
Proof.
  intros Hinc (? & ? & _ & _ & _ & ->)%run_pipeline_ok_inv
    (? & ? & _ & _ & _ & ->)%run_pipeline_ok_inv. cbn. intros ->.
  unfold user_message. by rewrite Hinc.
Qed.

Lemma user_prompt_ignores_system_parameters_witness :
  ∃ (log1' log2' : list Event) (r1 r2 : PipelineResult),
    run_pipeline
      (Sample.pipeline Sample.fixed_llm (Sample.fixed_retriever Sample.hits) true)
      Sample.question 3 Sample.kwargs [] = (log1', Ok r1) ∧
    run_pipeline
      (__init__ Sample.fixed_llm (Sample.fixed_retriever Sample.hits)
         (Some "simple") (Some true))
      Sample.question 3 ∅ [] = (log2', Ok r2) ∧
    system (prompts_used r1) ≠ system (prompts_used r2) ∧
    user (prompts_used r1) = user (prompts_used r2).
Proof.
  destruct (run_pipeline
      (Sample.pipeline Sample.fixed_llm (Sample.fixed_retriever Sample.hits) true)
      Sample.question 3 Sample.kwargs []) as [log1' [r1|e]] eqn:H1;
    [|by vm_compute in H1].
  destruct (run_pipeline
      (__init__ Sample.fixed_llm (Sample.fixed_retriever Sample.hits)
         (Some "simple") (Some true))
      Sample.question 3 ∅ []) as [log2' [r2|e]] eqn:H2;
    [|by vm_compute in H2].
  exists log1', log2', r1, r2. split; [reflexivity|]. split; [reflexivity|].
  split.
  - vm_compute in H1, H2. injection H1 as _ <-. injection H2 as _ <-. cbn.
    discriminate.
  - eapply user_prompt_ignores_system_parameters;
      [ | exact H1 | exact H2 | ]; [reflexivity|].
    vm_compute in H1, H2. injection H1 as _ <-. injection H2 as _ <-.
    reflexivity.
Defined.

(** X5. With scores included, the line of the user message that reports
    them is ["Relevance scores: "] followed by the very strings of the
    result's [similarity_scores] field, separated by [", "]. *)
Theorem scores_line_matches_result_field (self : RetrievalAugmentedQAPipeline)
    (user_query : string) (k : Z) (system_kwargs : gmap string PyVal)
    (log log' : list Event) (r : PipelineResult) :
  run_pipeline self user_query k system_kwargs log = (log', Ok r) →
  include_scores self = true →
  ∃ l : list string,
    similarity_scores r = Some l ∧
    content (user (prompts_used r)) =
      user_content (context_block (context r)) (pretty (context_count r))
        ("Relevance scores: " +:+ Str.join ", " l) user_query.
Proof.
  intros (ctx & answer & _ & _ & _ & ->)%run_pipeline_ok_inv Hinc. cbn.
  rewrite Hinc. eexists. split; [reflexivity|]. done.
Qed.

Lemma scores_line_matches_result_field_witness :
  ∃ (log' : list Event) (r : PipelineResult),
    run_pipeline
      (Sample.pipeline Sample.fixed_llm (Sample.fixed_retriever Sample.hits) true)
      Sample.question 2 Sample.kwargs [] = (log', Ok r) ∧
    similarity_scores r = Some ["Source 1: 0.637"; "Source 2: 0.614"] ∧
    content (user (prompts_used r)) =
      user_content (context_block (context r)) "2"
        "Relevance scores: Source 1: 0.637, Source 2: 0.614" Sample.question.
Proof.
  destruct (run_pipeline
      (Sample.pipeline Sample.fixed_llm (Sample.fixed_retriever Sample.hits) true)
      Sample.question 2 Sample.kwargs []) as [log' [r|e]] eqn:Hrun;
    [|by vm_compute in Hrun].
  exists log', r. split; [reflexivity|].
  destruct (scores_line_matches_result_field _ _ _ _ _ _ _ Hrun eq_refl)
    as (l & Hl & Hc).
  rewrite Hc, Hl. vm_compute in Hrun. injection Hrun as _ <-.
  cbn [similarity_scores] in Hl. injection Hl as <-.
  split; reflexivity.
Defined.

(** ** Stripping the context block *)

Module StripFacts.

Lemma last_char_nonempty (s : string) :
  s ≠ "" → ∃ ch, Str.last_char s = Some ch.
Proof.
  destruct s as [|c s]; [done|]. intros _. cbn [Str.last_char].
  destruct (Str.last_char s); eauto.
Qed.

Lemma last_char_rstrip (s : string) (ch : ascii) :
  Str.last_char (Str.rstrip s) = Some ch → Str.is_space ch = false.
Proof.
  induction s as [|c s IH]; [done|]. rewrite StrFacts.rstrip_cons.
  destruct (Str.rstrip s) as [|a b] eqn:E.
  - destruct (Str.is_space c) eqn:Hc; [done|]. by intros [= <-].
  - cbn [Str.last_char] in *. destruct (Str.last_char b); intros [= <-]; by apply IH.
Qed.

Lemma rstrip_nonspace_prefix (p s : string) (ch : ascii) :
  Str.last_char p = Some ch → Str.is_space ch = false →
  Str.rstrip (p +:+ s) = p +:+ Str.rstrip s.
Proof.
  intros Hp Hch. induction p as [|x p IH]; [done|].
  rewrite !StrFacts.app_cons, StrFacts.rstrip_cons.
  destruct p as [|y p].
  - cbn in Hp. injection Hp as ->. rewrite !StrFacts.app_nil_l, Hch.
    by destruct (Str.rstrip s).
  - rewrite IH; [done|]. cbn [Str.last_char] in *.
    by destruct (Str.last_char p).
Qed.

Lemma join_snoc (es : list string) (e : string) :
  Str.join (nl +:+ nl) (es ++ [e]) = paragraphs es +:+ e.
Proof.
  induction es as [|x es IH]; [done|].
  cbn [paragraphs]. rewrite !StrFacts.app_assoc, <- IH.
  change ((x :: es) ++ [e])%list with (x :: (es ++ [e]))%list.
  destruct (es ++ [e])%list eqn:E; [by destruct es|].
  cbn [Str.join]. by rewrite !StrFacts.app_assoc.
Qed.

(** The entry of a chunk, split after the colon. *)
Lemma source_entry_colon (i : Z) (c : ScoredChunk) :
  source_entry i c =
    ("[Source " +:+ pretty i +:+ "]:") +:+ " " +:+ text (chunk c).
Proof. unfold source_entry. by rewrite !StrFacts.app_assoc. Qed.

Lemma last_char_colon (i : Z) (p : string) :
  Str.last_char (p +:+ "[Source " +:+ pretty i +:+ "]:") = Some ":"%char.
Proof. by do 3 apply StrFacts.last_char_app. Qed.

(** The block of a non-empty retrieval: every entry but the last in full,
    then the last one with the whitespace at its end removed. *)
Lemma context_block_snoc (l : list ScoredChunk) (c : ScoredChunk) :
  context_block (l ++ [c]) =
    paragraphs (numbered source_entry 1 l)
      +:+ "[Source " +:+ pretty (Z.of_nat (length l) + 1) +:+ "]:"
      +:+ Str.rstrip (" " +:+ text (chunk c)).
Proof.
  rewrite context_block_rstrip, numbered_snoc, join_snoc, source_entry_colon.
  replace (1 + Z.of_nat (length l)) with (Z.of_nat (length l) + 1) by lia.
  rewrite <- StrFacts.app_assoc.
  erewrite rstrip_nonspace_prefix; [|apply last_char_colon|done].
  by rewrite !StrFacts.app_assoc.
Qed.

End StripFacts.

(** X6. The context a run embeds is empty exactly when nothing was
    retrieved; otherwise it begins with ["[Source 1]:"] and its last
    character is not whitespace. *)
Theorem context_block_is_trimmed (self : RetrievalAugmentedQAPipeline)
    (user_query : string) (k : Z) (system_kwargs : gmap string PyVal)
    (log log' : list Event) (r : PipelineResult) :
  run_pipeline self user_query k system_kwargs log = (log', Ok r) →
  ∃ block : string,
    content (user (prompts_used r)) =
      user_content block (pretty (context_count r))
        (scores_line (include_scores self) (context r)) user_query ∧
    (context r = [] ↔ block = "") ∧
    (context r ≠ [] →
     Str.starts_with "[Source 1]:" block = true ∧
     ∃ ch, Str.last_char block = Some ch ∧ Str.is_space ch = false).
Proof.
  intros (ctx & answer & _ & _ & _ & ->)%run_pipeline_ok_inv.
  cbn [prompts_used user content context context_count user_message].
  exists (context_block ctx). split; [done|].
  destruct ctx as [|c ctx _] using rev_ind; [by split|].
  rewrite StripFacts.context_block_snoc.
  assert (∃ rest, paragraphs (numbered source_entry 1 ctx)
            +:+ "[Source " +:+ pretty (Z.of_nat (length ctx) + 1) +:+ "]:"
            +:+ Str.rstrip (" " +:+ text (chunk c))
          = "[Source 1]:" +:+ rest) as [rest Hrest].
  { destruct ctx as [|c0 ctx]; [by eexists|].
    cbn [numbered paragraphs]. rewrite StripFacts.source_entry_colon.
    rewrite !StrFacts.app_assoc. by eexists. }
  split; [split; [by destruct ctx | by rewrite Hrest]|]. intros _. split.
  - rewrite Hrest. apply StrFacts.starts_with_app.
  - rewrite <- 3!StrFacts.app_assoc.
    erewrite <- StripFacts.rstrip_nonspace_prefix;
      [|rewrite !StrFacts.app_assoc; apply StripFacts.last_char_colon|done].
    destruct (StripFacts.last_char_nonempty
                (Str.rstrip
                   ((((paragraphs (numbered source_entry 1 ctx) +:+ "[Source ")
                        +:+ pretty (Z.of_nat (length ctx) + 1)) +:+ "]:")
                      +:+ " " +:+ text (chunk c)))) as [ch Hch].
    + erewrite StripFacts.rstrip_nonspace_prefix;
        [|rewrite !StrFacts.app_assoc; apply StripFacts.last_char_colon|done].
      rewrite !StrFacts.app_assoc, Hrest. done.
    + exists ch. split; [done|]. by eapply StripFacts.last_char_rstrip.
Qed.

Lemma context_block_is_trimmed_witness :
  ∃ (log' : list Event) (r : PipelineResult) (block : string) (ch : ascii),
    run_pipeline
      (Sample.pipeline Sample.fixed_llm
         (Sample.fixed_retriever [Sample.open_ended]) false)
      Sample.question 1 ∅ [] = (log', Ok r) ∧
    content (user (prompts_used r)) =
      user_content block "1" "" Sample.question ∧
    Str.starts_with "[Source 1]:" block = true ∧
    Str.last_char block = Some ch ∧ Str.is_space ch = false.
Proof.
  destruct (run_pipeline
      (Sample.pipeline Sample.fixed_llm
         (Sample.fixed_retriever [Sample.open_ended]) false)
      Sample.question 1 ∅ []) as [log' [r|e]] eqn:Hrun;
    [|by vm_compute in Hrun].
  assert (context r = [Sample.open_ended] ∧ context_count r = 1) as [Hctx Hcount].
  { pose proof Hrun as H. vm_compute in H. injection H as _ <-. by split. }
  destruct (context_block_is_trimmed _ _ _ _ _ _ _ Hrun)
    as (block & Hc & _ & Hne).
  destruct Hne as (Hstart & ch & Hlast & Hsp); [by rewrite Hctx|].
  exists log', r, block, ch. split; [reflexivity|].
  rewrite Hcount in Hc. split; [exact Hc|]. split; [exact Hstart|].
  split; [exact Hlast | exact Hsp].
Defined.

(** X7. Stripping the context touches the last entry only: every
    retrieved chunk but the last is embedded with its full text, followed
    by a blank line, and the last one follows as ["[Source n]:"] and its
    text, a space in front, with the whitespace at the end removed. *)
Theorem only_last_entry_is_trimmed (self : RetrievalAugmentedQAPipeline)
    (user_query : string) (k : Z) (system_kwargs : gmap string PyVal)
    (log log' : list Event) (r : PipelineResult)
    (before : list ScoredChunk) (last_chunk : ScoredChunk) :
  run_pipeline self user_query k system_kwargs log = (log', Ok r) →
  context r = (before ++ [last_chunk])%list →
  ∃ entries : list string,
    length entries = length before ∧
    (∀ (i : nat) (c : ScoredChunk),
       before !! i = Some c →
       entries !! i =
         Some ("[Source " +:+ pretty (Z.of_nat i + 1) +:+ "]: "
                 +:+ text (chunk c))) ∧
    content (user (prompts_used r)) =
      user_content
        (paragraphs entries
           +:+ "[Source " +:+ pretty (Z.of_nat (length before) + 1) +:+ "]:"
           +:+ Str.rstrip (" " +:+ text (chunk last_chunk)))
        (pretty (context_count r))
        (scores_line (include_scores self) (context r)) user_query.
Proof.
  intros (ctx & answer & _ & _ & _ & ->)%run_pipeline_ok_inv.
  cbn [prompts_used user content context context_count user_message].
  intros ->. exists (numbered source_entry 1 before).
  split; [apply length_numbered|]. split.
  - intros i c Hc. rewrite numbered_lookup, Hc. cbn. unfold source_entry.
    by replace (1 + Z.of_nat i) with (Z.of_nat i + 1) by lia.
  - by rewrite StripFacts.context_block_snoc.
Qed.

Lemma only_last_entry_is_trimmed_witness :
  ∃ (log' : list Event) (r : PipelineResult) (entries : list string),
    run_pipeline
      (Sample.pipeline Sample.fixed_llm
         (Sample.fixed_retriever [Sample.open_ended; Sample.open_ended]) false)
      Sample.question 2 ∅ [] = (log', Ok r) ∧
    entries = ["[Source 1]: U-6 players learn through play "] ∧
    content (user (prompts_used r)) =
      user_content
        (paragraphs entries +:+ "[Source 2]: U-6 players learn through play")
        "2" "" Sample.question.
Proof.
  destruct (run_pipeline
      (Sample.pipeline Sample.fixed_llm
         (Sample.fixed_retriever [Sample.open_ended; Sample.open_ended]) false)
      Sample.question 2 ∅ []) as [log' [r|e]] eqn:Hrun;
    [|by vm_compute in Hrun].
  assert (context r = ([Sample.open_ended] ++ [Sample.open_ended])%list
          ∧ context_count r = 2) as [Hctx Hcount].
  { pose proof Hrun as H. vm_compute in H. injection H as _ <-. by split. }
  destruct (only_last_entry_is_trimmed _ _ _ _ _ _ _ _ _ Hrun Hctx)
    as (entries & Hlen & Hentries & Hc).
  exists log', r, entries. split; [reflexivity|].
  assert (entries = ["[Source 1]: U-6 players learn through play "]) as Hent.
  { destruct entries as [|e0 [|e1 entries]]; try discriminate Hlen.
    pose proof (Hentries 0%nat Sample.open_ended eq_refl) as H0.
    injection H0 as ->. reflexivity. }
  split; [exact Hent|]. rewrite Hc, Hcount, Hctx. reflexivity.
Defined.

(** X8. A pipeline built with the constructor's defaults excludes scores
    and answers in the "detailed" style: its results carry no
    [similarity_scores], its user message has an empty scores line, and its
    system message asks for "detailed" responses of the length the caller
    names, "detailed" again when the caller names none. *)
Theorem default_pipeline (m : ChatModel) (retriever : Retriever)
    (user_query : string) (k : Z) (system_kwargs : gmap string PyVal)
    (log log' : list Event) (r : PipelineResult) :
  run_pipeline (__init__ m retriever None None) user_query k system_kwargs log
    = (log', Ok r) →
  similarity_scores r = None ∧
  content (user (prompts_used r)) =
    user_content (context_block (context r)) (pretty (context_count r)) ""
      user_query ∧
  ∃ len : string,
    content (system (prompts_used r)) = system_content "detailed" len ∧
    (∀ v, system_kwargs !! "response_length" = Some v → len = py_str v) ∧
    (system_kwargs !! "response_length" = None → len = "detailed").
Proof.
  intros (ctx & answer & _ & _ & _ & ->)%run_pipeline_ok_inv.
  cbn [prompts_used user system content context context_count
       similarity_scores user_message system_message __init__
       include_scores response_style default from_option scores_line].
  split; [done|]. split; [done|].
  exists (response_length_of system_kwargs). split; [done|].
  unfold response_length_of.
  destruct (system_kwargs !! "response_length"); split; try done.
  by intros ? [= ->].
Qed.

Lemma default_pipeline_witness :
  ∃ (log' : list Event) (r : PipelineResult),
    run_pipeline
      (__init__ Sample.fixed_llm (Sample.fixed_retriever Sample.hits) None None)
      Sample.question 3 ∅ [] = (log', Ok r) ∧
    similarity_scores r = None ∧
    content (system (prompts_used r)) = system_content "detailed" "detailed".
Proof.
  destruct (run_pipeline
      (__init__ Sample.fixed_llm (Sample.fixed_retriever Sample.hits) None None)
      Sample.question 3 ∅ []) as [log' [r|e]] eqn:Hrun;
    [|by vm_compute in Hrun].
  exists log', r. split; [reflexivity|].
  destruct (default_pipeline _ _ _ _ _ _ _ _ Hrun)
    as (Hnone & _ & len & Hsys & _ & Hlen).
  split; [exact Hnone|]. rewrite Hsys, (Hlen eq_refl). reflexivity.
Defined.

(** ** The two templates on their own *)

(** X9. The system template never fails to render: both of its
    placeholders have defaults, so whatever the parameters, the message is
    the template with the supplied [response_style] and [response_length],
    "simple" and "short" standing in for the ones left out; other keys are
    ignored. *)
Theorem rag_system_prompt_always_renders (params : gmap string PyVal) :
  Prompt.create_message rag_system_prompt params =
    Ok {| role := System;
          content :=
            system_content
              (py_str (default (PyStr "simple") (params !! "response_style")))
              (py_str (default (PyStr "short") (params !! "response_length"))) |}.
Proof.
  unfold Prompt.create_message.
  change (Prompt.template rag_system_prompt) with RAG_SYSTEM_TEMPLATE.
  rewrite parse_system_template. cbn [Prompt.render].
  rewrite !lookup_union.
  assert (Prompt.defaults rag_system_prompt !! "response_style"
          = Some (PyStr "simple")) as -> by reflexivity.
  assert (Prompt.defaults rag_system_prompt !! "response_length"
          = Some (PyStr "short")) as -> by reflexivity.
  destruct (params !! "response_style"), (params !! "response_length");
    reflexivity.
Qed.

(** X10. The user template renders exactly when the parameters supply
    both [context] and [user_query], its two placeholders without a
    default; [context_count] and [similarity_scores] fall back to the empty
    string. When one of the two is missing the template, being strict,
    fails with [MissingPlaceholderError] for a missing name. *)
Theorem rag_user_prompt_requires_context_and_query
    (params : gmap string PyVal) :
  match params !! "context", params !! "user_query" with
  | Some c, Some q =>
      Prompt.create_message rag_user_prompt params =
        Ok {| role := User;
              content :=
                user_content (py_str c)
                  (py_str (default (PyStr "") (params !! "context_count")))
                  (py_str (default (PyStr "") (params !! "similarity_scores")))
                  (py_str q) |}
  | _, _ =>
      ∃ name : string,
        Prompt.create_message rag_user_prompt params =
          Err (MissingPlaceholderError name) ∧
        params !! name = None ∧
        (name = "context" ∨ name = "user_query")
  end.
Proof.
  unfold Prompt.create_message.
  change (Prompt.template rag_user_prompt) with RAG_USER_TEMPLATE.
  rewrite parse_user_template. cbn [Prompt.render].
  rewrite !lookup_union.
  assert (Prompt.defaults rag_user_prompt !! "context" = None)
    as -> by reflexivity.
  assert (Prompt.defaults rag_user_prompt !! "user_query" = None)
    as -> by reflexivity.
  assert (Prompt.defaults rag_user_prompt !! "context_count"
          = Some (PyStr "")) as -> by reflexivity.
  assert (Prompt.defaults rag_user_prompt !! "similarity_scores"
          = Some (PyStr "")) as -> by reflexivity.
  change (Prompt.strict rag_user_prompt) with true.
  destruct (params !! "context") as [c|] eqn:Hc;
    destruct (params !! "user_query") as [q|] eqn:Hq;
    destruct (params !! "context_count"), (params !! "similarity_scores");
    cbn; first [ reflexivity | by exists "context"; auto
               | by exists "user_query"; auto ].
Qed.
